(** * PCB Thermal Toolkit: the three calculators of [PcbThermalToolkit]

    The React component file defines three calculators, each a [useMemo]
    closure over the component's state:
    - [Ipc2221Calculator]   : IPC-2221 trace width, resistance, power loss;
    - [CopperTempCalculator]: copper resistance at two temperatures;
    - [ThermalViaCalculator]: vertical conduction through a via array.

    A JavaScript number is an IEEE-754 binary64 value.  The closures are
    embedded once, over an interface [JsNumber] of the operations they use,
    and read at two instances:
    - [Binary64]: Rocq's primitive floats, the arithmetic the program runs
      on (rounding, overflow, underflow, NaN, the infinities and the two
      zeros included);
    - [Exact]   : real numbers, the reading of the formulas the closures
      evaluate.  It is not the program's arithmetic: what is proved at this
      instance is a property of the formula, and is marked as such. *)

From Stdlib Require Import ZArith QArith Reals Lra Lia Floats Uint63 String List Bool.
Import ListNotations.

Set Warnings "-inexact-float".

(** ** The operations on numbers the source uses *)

Declare Scope js_scope.
Delimit Scope js_scope with js.

(** [lit q] is the decimal literal [q] of the source text, [falsy] is
    ToBoolean(x) = false and [sameValue] is Object.is, which React uses to
    compare the dependencies of a memoised value. *)
Class JsNumber (T : Type) := {
  lit : Q -> T;
  add : T -> T -> T;
  sub : T -> T -> T;
  mul : T -> T -> T;
  div : T -> T -> T;
  Math_PI : T;
  falsy : T -> bool;
  sameValue : T -> T -> bool
}.

Arguments lit {T _} q%_Q.

(** [Math.pow]; ECMAScript leaves its value implementation-approximated. *)
Class JsMathPow (T : Type) := {
  Math_pow : T -> T -> T
}.

Notation "x + y" := (add x y) : js_scope.
Notation "x - y" := (sub x y) : js_scope.
Notation "x * y" := (mul x y) : js_scope.
Notation "x / y" := (div x y) : js_scope.

(** [a || b] on numbers: [a] unless it is falsy. *)
Definition js_or {T} {N : JsNumber T} (a b : T) : T :=
  if falsy a then b else a.

Notation "x || y" := (js_or x y) : js_scope.

Local Open Scope js_scope.

(** ** Memoised values

    A dependency array holds numbers and strings; React recomputes a
    memoised value when some dependency differs, by Object.is, from the one
    of the previous render. *)

Inductive JsValue (T : Type) : Type :=
| Num (x : T)
| Str (s : string).

Arguments Num {T} x.
Arguments Str {T} s.

Definition Object_is {T} {N : JsNumber T} (a b : JsValue T) : bool :=
  match a, b with
  | Num x, Num y => sameValue x y
  | Str s, Str t => String.eqb s t
  | _, _ => false
  end.

Fixpoint areHookInputsEqual {T} {N : JsNumber T} (nextDeps prevDeps : list (JsValue T)) : bool :=
  match nextDeps, prevDeps with
  | a :: nextDeps', b :: prevDeps' =>
      if Object_is a b then areHookInputsEqual nextDeps' prevDeps' else false
  | _, _ => true
  end.

(** What React keeps of one [useMemo] call between two renders: nothing
    before the first render, then the last value with its dependencies. *)
Definition MemoCell (T V : Type) : Type := option (V * list (JsValue T)).

(** React's [useMemo(calc, deps)] in a render whose memo cell is [cell]:
    the value handed to the render and the cell it leaves. [calc] is the
    closure of this render; it runs on the first render and whenever a
    dependency changed. *)
Definition useMemo {T V} {N : JsNumber T}
    (calc : unit -> V) (deps : list (JsValue T)) (cell : MemoCell T V)
  : V * MemoCell T V :=
  match cell with
  | Some (prevValue, prevDeps) =>
      if areHookInputsEqual deps prevDeps then (prevValue, cell)
      else let nextValue := calc tt in (nextValue, Some (nextValue, deps))
  | None => let nextValue := calc tt in (nextValue, Some (nextValue, deps))
  end.

(** ** Helpers and constants *)

Section Helpers.
Context {T : Type} {N : JsNumber T}.

Definition mmToMil (mm : T) : T := mm / lit 0.0254.
Definition milToMm (mil : T) : T := mil * lit 0.0254.
Definition ozToMm (oz : T) : T := oz * lit 0.0348.


Definition IPC_B : T := lit 0.44.
Definition IPC_C : T := lit 0.725.
Definition K_EXT : T := lit 0.048.
Definition K_INT : T := lit 0.024.

Definition RHO_CU_20C : T := lit 1.68e-8.
Definition ALPHA_CU : T := lit 0.0039.
Definition K_CU : T := lit 385.

End Helpers.

(** ** 1) IPC-2221 calculator *)

Module Ipc2221Calculator.
Section WithNumber.
Context {T : Type} {N : JsNumber T} {P : JsMathPow T}.

(** The six [useState] cells. *)
Record State := {
  current : T;
  tempRise : T;
  layer : string;
  thicknessOz : T;
  length : T;
  ambient : T
}.

Record Results := {
  width_mm : T;
  width_mil : T;
  area_mils2 : T;
  R20 : T;
  R_T : T;
  P20 : T;
  P_T : T;
  J : T
}.

Definition k (s : State) : T :=
  if String.eqb (layer s) "external" then K_EXT else K_INT.

Definition results (s : State) : Results :=
  let k := k s in
  let area_mils2 :=
    Math_pow (current s / (k * Math_pow (tempRise s) IPC_B)) (lit 1 / IPC_C) in
  let t_mm := ozToMm (thicknessOz s) in
  let width_mil := area_mils2 / (thicknessOz s * lit 1.378) in
  let width_mm := milToMm width_mil in
  let crossSection_m2 := (t_mm / lit 1000) * (width_mm / lit 1000) in
  let length_m := length s / lit 1000 in
  let R20 := length_m * RHO_CU_20C / (crossSection_m2 || lit 1e-18) in
  let topTemp := ambient s + tempRise s in
  let R_T := R20 * (lit 1 + ALPHA_CU * (topTemp - lit 20)) in
  let P20 := current s * current s * R20 in
  let P_T := current s * current s * R_T in
  let J := current s / (crossSection_m2 || lit 1e-18) in
  {| width_mm := width_mm; width_mil := width_mil; area_mils2 := area_mils2;
     R20 := R20; R_T := R_T; P20 := P20; P_T := P_T; J := J |}.

(** The closure's local [crossSection_m2], which is no field of the result:
    the area the two divisions floor. *)
Definition crossSection_m2 (s : State) : T :=
  (ozToMm (thicknessOz s) / lit 1000) * (width_mm (results s) / lit 1000).

(** The dependency array of the [useMemo] call. *)
Definition deps (s : State) : list (JsValue T) :=
  [Num (current s); Num (tempRise s); Str (layer s); Num (thicknessOz s);
   Num (length s); Num (ambient s)].

(** The initial values of the state cells. *)
Definition initial : State :=
  {| current := lit 30; tempRise := lit 10; layer := "external";
     thicknessOz := lit 2; length := lit 50; ambient := lit 25 |}.

End WithNumber.
Arguments State T : clear implicits.
Arguments Results T : clear implicits.
End Ipc2221Calculator.

(** ** 2) Copper resistance vs temperature *)

Module CopperTempCalculator.
Section WithNumber.
Context {T : Type} {N : JsNumber T}.

Record State := {
  rho20 : T;
  alpha : T;
  t1 : T;
  t2 : T;
  length : T;
  width : T;
  thickness : T
}.

Record Res := {
  A : T;
  L : T;
  R1 : T;
  R2 : T
}.

Definition res (s : State) : Res :=
  let A := (width s / lit 1000) * (thickness s / lit 1000) in
  let L := length s / lit 1000 in
  let R1 := (rho20 s * (lit 1 + alpha s * (t1 s - lit 20))) * L / (A || lit 1e-18) in
  let R2 := (rho20 s * (lit 1 + alpha s * (t2 s - lit 20))) * L / (A || lit 1e-18) in
  {| A := A; L := L; R1 := R1; R2 := R2 |}.

Definition deps (s : State) : list (JsValue T) :=
  [Num (rho20 s); Num (alpha s); Num (t1 s); Num (t2 s); Num (length s);
   Num (width s); Num (thickness s)].

Definition initial : State :=
  {| rho20 := RHO_CU_20C; alpha := ALPHA_CU; t1 := lit 20; t2 := lit 80;
     length := lit 100; width := lit 3; thickness := lit 0.070 |}.

End WithNumber.
Arguments State T : clear implicits.
Arguments Res T : clear implicits.
End CopperTempCalculator.

(** ** 3) Thermal via array *)

Module ThermalViaCalculator.
Section WithNumber.
Context {T : Type} {N : JsNumber T}.

Record State := {
  n : T;
  hole : T;
  plate : T;
  boardT : T;
  kCu : T
}.

Record Res := {
  Do : T;
  Di : T;
  A_via_mm2 : T;
  A_total_m2 : T;
  Rth_cond : T
}.

Definition res (s : State) : Res :=
  let Do := hole s + lit 2 * plate s in
  let Di := hole s in
  let A_via_mm2 := Math_PI / lit 4 * (Do * Do - Di * Di) in
  let A_total_m2 := (A_via_mm2 * n s) * lit 1e-6 in
  let L := boardT s / lit 1000 in
  let Rth_cond := L / (kCu s * (A_total_m2 || lit 1e-18)) in
  {| Do := Do; Di := Di; A_via_mm2 := A_via_mm2; A_total_m2 := A_total_m2;
     Rth_cond := Rth_cond |}.

Definition deps (s : State) : list (JsValue T) :=
  [Num (n s); Num (hole s); Num (plate s); Num (boardT s); Num (kCu s)].

Definition initial : State :=
  {| n := lit 16; hole := lit 0.3; plate := lit 0.025; boardT := lit 1.6;
     kCu := K_CU |}.

End WithNumber.
Arguments State T : clear implicits.
Arguments Res T : clear implicits.
End ThermalViaCalculator.

(** ** The components' renders

    A component calls [useMemo] once per render, with the closure over the
    state of that render and the dependency array of that state. *)

Definition render {T S V} {N : JsNumber T}
    (calc : S -> V) (deps : S -> list (JsValue T))
    (s : S) (cell : MemoCell T V) : V * MemoCell T V :=
  useMemo (fun _ => calc s) (deps s) cell.

Definition Ipc2221_render {T} {N : JsNumber T} {P : JsMathPow T} :=
  render Ipc2221Calculator.results Ipc2221Calculator.deps.

Definition CopperTemp_render {T} {N : JsNumber T} :=
  render CopperTempCalculator.res CopperTempCalculator.deps.

Definition ThermalVia_render {T} {N : JsNumber T} :=
  render ThermalViaCalculator.res ThermalViaCalculator.deps.

(** The memo cell a sequence of renders leaves, oldest state first. *)
Definition after_renders {S C V : Type} (render : S -> C -> V * C)
    (history : list S) (cell : C) : C :=
  fold_left (fun c s => snd (render s c)) history cell.

(** What a memo cell holds was computed by the closure of some render. *)
Definition cell_ok {T S V} (calc : S -> V) (deps : S -> list (JsValue T))
    (cell : MemoCell T V) : Prop :=
  match cell with
  | None => True
  | Some (v, d) => exists s0, d = deps s0 /\ v = calc s0
  end.

(** Object.is answers true on identical values only. *)
Class SameValueSound (T : Type) {N : JsNumber T} : Prop :=
  sameValue_sound : forall x y : T, sameValue x y = true -> x = y.

(** ** Instance: binary64 *)

(** A non-negative decimal literal: the quotient of two integers that are
    binary64 values, rounded once by the division, hence the binary64 value
    nearest to the decimal. *)
Definition of_Q (q : Q) : float :=
  PrimFloat.div (of_uint63 (Uint63.of_Z (Qnum q)))
                (of_uint63 (Uint63.of_Z (Zpos (Qden q)))).

#[global] Instance Binary64 : JsNumber float := {|
  lit := of_Q;
  add := PrimFloat.add;
  sub := PrimFloat.sub;
  mul := PrimFloat.mul;
  div := PrimFloat.div;
  Math_PI := 3.141592653589793%float;
  falsy := fun x => (PrimFloat.is_zero x || PrimFloat.is_nan x)%bool;
  sameValue := PrimFloat.Leibniz.eqb
|}.

(** ** Instance: real arithmetic

    The formulas of the closures read over the real numbers.  This is not
    the arithmetic of the program: it has no rounding, no overflow or
    underflow, no NaN and no infinities, and a quotient by 0 is Rocq's
    [x / 0 = 0], where JavaScript answers an infinity or NaN.  What is
    proved at this instance is a property of the formula, on inputs that
    keep every divisor and every base of a power positive. *)

Definition Req_bool (x y : R) : bool :=
  if Req_dec_T x y then true else false.

#[global] Instance Exact : JsNumber R := {|
  lit := Q2R;
  add := Rplus;
  sub := Rminus;
  mul := Rmult;
  div := Rdiv;
  Math_PI := PI;
  falsy := fun x => Req_bool x 0;
  sameValue := Req_bool
|}.

(** [Math.pow] on the reals: the real power of a positive base.  The value
    0 elsewhere is a convention and not JavaScript's answer (NaN for a
    negative base at these exponents); no theorem of this file depends on
    it. *)
#[global] Instance Exact_pow : JsMathPow R := {|
  Math_pow := fun x y => if Rlt_dec 0 x then Rpower x y else 0%R
|}.

(** ** Checking the unit conversions on a grid of decimal inputs *)

(** [test] holds of [count] consecutive integers from [k] on. *)
Fixpoint holds_from (test : Z -> bool) (k : Z) (count : nat) : bool :=
  match count with
  | O => true
  | S n => test k && holds_from test (k + 1) n
  end.

(** [r] is [x] or one of the two binary64 values next to it. *)
Definition within_one_ulp (r x : float) : bool :=
  (PrimFloat.Leibniz.eqb r x || PrimFloat.Leibniz.eqb r (next_down x)
   || PrimFloat.Leibniz.eqb r (next_up x))%bool.


(** The same for the round trip from mm to mil and back. *)
Definition mm_round_trip_within_one_ulp (k : Z) : bool :=
  let x : float := lit (k # 100) in
  within_one_ulp (milToMm (mmToMil x)) x.

(** ** The desktop shell, [electron/main.cjs]

    The shell registers three callbacks: the one of [app.whenReady()], the
    [activate] handler it registers from inside that callback, and the
    [window-all-closed] handler. The state is what the callbacks read and
    write: the open windows and whether [app.quit()] was called. *)

Module ElectronMain.

Record WebPreferences := {
  contextIsolation : bool;
  nodeIntegration : bool
}.

(** What a window was told to load: [loadURL(url)], or [loadFile] of
    [path.join] applied to the listed segments. *)
Inductive Content :=
| LoadURL (url : string)
| LoadFile (path_join : list string).

(** [devTools] holds the mode [openDevTools] was called with, if it was. *)
Record BrowserWindow := {
  width : Z;
  height : Z;
  webPreferences : WebPreferences;
  content : Content;
  devTools : option string
}.

(** What the script reads of its environment: [app.isPackaged],
    [process.platform] and [__dirname]. *)
Record Process := {
  isPackaged : bool;
  platform : string;
  dirname : string
}.

Record App := {
  ready : bool;
  windows : list BrowserWindow;
  quit_called : bool
}.

Definition isDev (p : Process) : bool := negb (isPackaged p).

Definition new_window (p : Process) : BrowserWindow :=
  {| width := 1100;
     height := 800;
     webPreferences := {| contextIsolation := true; nodeIntegration := false |};
     content := if isDev p then LoadURL "http://localhost:5173"
                else LoadFile [dirname p; "../dist/index.html"%string];
     devTools := if isDev p then Some "detach"%string else None |}.

Definition createWindow (p : Process) (a : App) : App :=
  {| ready := ready a;
     windows := windows a ++ [new_window p];
     quit_called := quit_called a |}.

(** The events the callbacks answer, and a window closed by the user. *)
Inductive Event :=
| WhenReady
| Activate
| WindowAllClosed
| WindowClosed (i : nat).

Definition on_activate (p : Process) (a : App) : App :=
  if Nat.eqb (List.length (windows a)) 0 then createWindow p a else a.

Definition on_window_all_closed (p : Process) (a : App) : App :=
  if negb (String.eqb (platform p) "darwin")
  then {| ready := ready a; windows := windows a; quit_called := true |}
  else a.

(** [whenReady] resolves once; [activate] has a handler only from then on. *)
Definition step (p : Process) (a : App) (ev : Event) : App :=
  match ev with
  | WhenReady =>
      if ready a then a
      else createWindow p
             {| ready := true; windows := windows a; quit_called := quit_called a |}
  | Activate => if ready a then on_activate p a else a
  | WindowAllClosed => on_window_all_closed p a
  | WindowClosed i =>
      {| ready := ready a;
         windows := firstn i (windows a) ++ skipn (S i) (windows a);
         quit_called := quit_called a |}
  end.

Definition started : App :=
  {| ready := false; windows := []; quit_called := false |}.

Definition run (p : Process) (events : list Event) : App :=
  fold_left (step p) events started.

End ElectronMain.

(** ** Reading the literals of the exact instance *)

Ltac lit_of_Q :=
  repeat match goal with
  | |- context [Q2R ?q] =>
      let n := eval vm_compute in (Qnum q) in
      let d := eval vm_compute in (Qden q) in
      change (Q2R q) with (IZR n * / IZR (Zpos d))%R
  end.

Ltac exact_ops := cbn [lit add sub mul div Math_PI Exact]; lit_of_Q.

(** Decimal numerals of the reals, as quotients of integer numerals. *)
Ltac decimals :=
  repeat match goal with
  | |- context [Z.pow_pos ?a ?b] =>
      let v := eval vm_compute in (Z.pow_pos a b) in
      change (Z.pow_pos a b) with v
  end.

Ltac binary64_ops := cbn [lit add sub mul div Math_PI Binary64].

(** * Properties *)

(** ** The floor [area || 1e-18] *)

Section Floor.
Context {T : Type} {N : JsNumber T}.

Lemma js_or_falsy (a b : T) : falsy a = true -> (a || b) = b.
Proof. unfold js_or. intros ->. reflexivity. Qed.

Lemma js_or_truthy (a b : T) : falsy a = false -> (a || b) = a.
Proof. unfold js_or. intros ->. reflexivity. Qed.

Lemma js_or_not_falsy (a b : T) : falsy b = false -> falsy (a || b) = false.
Proof.
  intros Hb. unfold js_or.
  destruct (falsy a) eqn:Ha; [exact Hb | exact Ha].
Qed.

End Floor.

(** ** The calibration constant of the IPC-2221 closure *)

Section Formulas.
Context {T : Type} {N : JsNumber T} {P : JsMathPow T}.

Import Ipc2221Calculator.

Lemma k_external (s : State T) : layer s = "external"%string -> k s = lit 0.048.
Proof. unfold k. intros ->. reflexivity. Qed.

Lemma k_internal (s : State T) : layer s = "internal"%string -> k s = lit 0.024.
Proof. unfold k. intros ->. reflexivity. Qed.

End Formulas.

(** ** The floor at the exact instance *)

Lemma falsy_Exact (x : R) : @falsy R Exact x = false <-> x <> 0%R.
Proof.
  cbn. unfold Req_bool.
  destruct (Req_dec_T x 0); split; intros; congruence.
Qed.

Lemma falsy_Exact_zero (x : R) : @falsy R Exact x = true <-> x = 0%R.
Proof.
  cbn. unfold Req_bool.
  destruct (Req_dec_T x 0); split; intros; congruence.
Qed.

(** ** Copper resistance vs temperature *)

Section CopperTemp.
Import CopperTempCalculator.

(** C3. The cross-section is [(width/1000) * (thickness/1000)], and the
    resistance at each of the two temperatures is
    [rho20 * (1 + alpha * (t - 20)) * (length/1000)] over the cross-section,
    1e-18 standing in for a falsy cross-section. At the initial state
    (second scenario) the exact values are [1.68e-8 * 0.1 / (3e-3 * 0.070e-3)]
    and that times [1 + 0.0039 * 60]; the program's binary64 results are
    the binary64 values nearest to them, 0.008 and 0.009872. *)
Theorem copper_resistance_at_two_temperatures :
  (forall (T : Type) (N : JsNumber T) (s : State T),
     let r := res s in
     let R_at t :=
       rho20 s * (lit 1 + alpha s * (t - lit 20)) * (length s / lit 1000) in
     A r = (width s / lit 1000) * (thickness s / lit 1000) /\
     R1 r = R_at (t1 s) / (A r || lit 1e-18) /\
     R2 r = R_at (t2 s) / (A r || lit 1e-18) /\
     (falsy (A r) = false ->
        R1 r = R_at (t1 s) / A r /\ R2 r = R_at (t2 s) / A r) /\
     (falsy (A r) = true ->
        R1 r = R_at (t1 s) / lit 1e-18 /\ R2 r = R_at (t2 s) / lit 1e-18)) /\
  (let r := res (T:=R) initial in
   A r = (3e-3 * 0.070e-3)%R /\
   R1 r = (1.68e-8 * 0.1 / (3e-3 * 0.070e-3))%R /\
   R2 r = (R1 r * (1 + 0.0039 * 60))%R) /\
  (let r := res (T:=float) initial in
   R1 r = 0.008%float /\ R2 r = 0.009872%float).
Proof.
  split; [|split].
  - intros T N s r R_at. subst r R_at. unfold res. cbn [A R1 R2].
    split; [reflexivity|]. split; [reflexivity|]. split; [reflexivity|].
    split; intros Hf.
    + rewrite (js_or_truthy _ _ Hf). split; reflexivity.
    + rewrite (js_or_falsy _ _ Hf). split; reflexivity.
  - cbv zeta. unfold res.
    cbn [A R1 R2 initial rho20 alpha t1 t2 length width thickness].
    rewrite (js_or_truthy (N:=Exact)).
    + unfold RHO_CU_20C, ALPHA_CU. exact_ops.
      split; [field|]. split; field.
    + apply falsy_Exact. exact_ops. lra.
  - cbv zeta. split; reflexivity.
Qed.

(** C7. When the two temperatures are the same value, so are the two
    resistances. *)
Theorem same_temperature_same_resistance :
  forall (T : Type) (N : JsNumber T) (s : State T),
    t1 s = t2 s -> R1 (res s) = R2 (res s).
Proof.
  intros T N s Heq. unfold res. cbn [R1 R2].
  rewrite Heq. reflexivity.
Qed.

Lemma same_temperature_same_resistance_witness :
  let s := {| rho20 := 1.68e-8; alpha := 0.0039; t1 := 80; t2 := 80;
              length := 100; width := 3; thickness := 0.070 |}%float in
  R1 (res s) = R2 (res s).
Proof.
  exact (same_temperature_same_resistance float Binary64
           {| rho20 := 1.68e-8; alpha := 0.0039; t1 := 80; t2 := 80;
              length := 100; width := 3; thickness := 0.070 |}%float eq_refl).
Defined.

End CopperTemp.

(** ** Binary64: the special values the floor meets *)

Section Binary64Facts.
Local Open Scope float_scope.

Lemma SF2Prim_of (x : float) (v : spec_float) : Prim2SF x = v -> x = SF2Prim v.
Proof. intros <-. symmetry. apply SF2Prim_Prim2SF. Qed.

(** Dividing by +0 gives an infinity or NaN. *)
Lemma div_by_zero (a : float) :
  a / 0 = infinity \/ a / 0 = neg_infinity \/ a / 0 = nan.
Proof.
  pose proof (FloatAxioms.div_spec a 0) as E.
  change (Prim2SF 0) with (S754_zero false) in E.
  destruct (Prim2SF a) as [s | s | | s m e]; cbn in E; apply SF2Prim_of in E.
  - right; right; exact E.
  - destruct s; [right; left | left]; exact E.
  - right; right; exact E.
  - destruct s; [right; left | left]; exact E.
Qed.

(** Multiplying by +0 gives a zero or NaN. *)
Lemma mul_by_zero (a : float) :
  a * 0 = 0 \/ a * 0 = -0 \/ a * 0 = nan.
Proof.
  pose proof (FloatAxioms.mul_spec a 0) as E.
  change (Prim2SF 0) with (S754_zero false) in E.
  destruct (Prim2SF a) as [s | s | | s m e]; cbn in E; apply SF2Prim_of in E.
  - destruct s; [right; left | left]; exact E.
  - right; right; exact E.
  - right; right; exact E.
  - destruct s; [right; left | left]; exact E.
Qed.

(** At binary64 a number is falsy when it is a zero or NaN, and the floor
    is neither. *)
Lemma falsy_Binary64 (x : float) :
  falsy x = (PrimFloat.is_zero x || PrimFloat.is_nan x)%bool.
Proof. reflexivity. Qed.

Lemma floor_not_falsy : falsy (T:=float) (lit 1e-18) = false.
Proof. reflexivity. Qed.

Lemma floored_Binary64 (x : float) :
  PrimFloat.is_zero (x || lit 1e-18)%js = false /\
  PrimFloat.is_nan (x || lit 1e-18)%js = false.
Proof.
  pose proof (js_or_not_falsy x (lit 1e-18) floor_not_falsy) as Hf.
  rewrite falsy_Binary64 in Hf. apply orb_false_iff in Hf. exact Hf.
Qed.

(** The literals of the source, read by [lit], are the binary64 values
    JavaScript reads them as. *)
Lemma Binary64_literals :
  [lit 0.0254; lit 0.0348; lit 0.44; lit 0.725; lit 0.048; lit 0.024;
   lit 1.68e-8; lit 0.0039; lit 385; lit 1.378; lit 1000; lit 1e-18;
   lit 1e-6; lit 20; lit 1; lit 2; lit 4; lit 30; lit 10; lit 50; lit 25;
   lit 80; lit 100; lit 3; lit 0.070; lit 16; lit 0.3; lit 0.025; lit 1.6]
  = [0.0254; 0.0348; 0.44; 0.725; 0.048; 0.024;
     1.68e-8; 0.0039; 385; 1.378; 1000; 1e-18;
     1e-6; 20; 1; 2; 4; 30; 10; 50; 25;
     80; 100; 3; 0.070; 16; 0.3; 0.025; 1.6].
Proof. reflexivity. Qed.

(** Two numbers that [==] holds equal are the same value, or two zeros. *)
Lemma eqb_true_cases (x y : float) :
  (x =? y) = true ->
  x = y \/
  exists sx sy, Prim2SF x = S754_zero sx /\ Prim2SF y = S754_zero sy.
Proof.
  rewrite FloatAxioms.eqb_spec. unfold SFeqb.
  destruct (Prim2SF x) as [sx | sx | | sx mx ex] eqn:Ex;
    destruct (Prim2SF y) as [sy | sy | | sy my ey] eqn:Ey;
    try destruct sx; try destruct sy; cbn; try discriminate;
    try (intros _; right; eauto; fail);
    try (intros _; left; apply Prim2SF_inj; congruence);
    destruct (Z.compare ex ey) eqn:Hz; try discriminate;
    apply Z.compare_eq in Hz; subst ey;
    destruct (Pos.compare_cont Eq mx my) eqn:Hm; try discriminate;
    apply Pos.compare_eq in Hm; subst my;
    intros _; left; apply Prim2SF_inj; congruence.
Qed.

(** Subtracting 20 does not tell the two zeros apart. *)
Lemma sub_20_of_equal (x y : float) :
  (x =? y) = true -> x - 20 = y - 20.
Proof.
  intros Heq. destruct (eqb_true_cases x y Heq) as [-> | (sx & sy & Ex & Ey)];
    [reflexivity|].
  pose proof (FloatAxioms.sub_spec x 20) as Hx.
  pose proof (FloatAxioms.sub_spec y 20) as Hy.
  rewrite Ex in Hx. rewrite Ey in Hy.
  apply SF2Prim_of in Hx. apply SF2Prim_of in Hy.
  rewrite Hx, Hy. reflexivity.
Qed.

End Binary64Facts.

(** ** Thermal via array *)

Section ThermalVia.
Import ThermalViaCalculator.

(** C2, as the closure computes it. The outer diameter is
    [hole + 2 * plate], the copper area of one via is
    [PI/4 * (Do^2 - Di^2)] with [Di = hole], the total area is that times
    the via count times 1e-6, and the resistance is [boardT/1000] over
    [kCu] times the total area, 1e-18 standing in for a falsy total area:
    the quotient by [kCu * A_total_m2] itself is what a truthy area gives.
    At the initial state (third scenario) [Do] is 0.35 and the resistance is
    [0.0016 / (385 * A_total_m2)], exactly and in binary64. *)
Theorem via_resistance_with_floor :
  (forall (T : Type) (N : JsNumber T) (s : State T),
     let r := res s in
     Do r = hole s + lit 2 * plate s /\
     Di r = hole s /\
     A_via_mm2 r = Math_PI / lit 4 * (Do r * Do r - Di r * Di r) /\
     A_total_m2 r = A_via_mm2 r * n s * lit 1e-6 /\
     Rth_cond r = boardT s / lit 1000 / (kCu s * (A_total_m2 r || lit 1e-18)) /\
     (falsy (A_total_m2 r) = false ->
        Rth_cond r = boardT s / lit 1000 / (kCu s * A_total_m2 r)) /\
     (falsy (A_total_m2 r) = true ->
        Rth_cond r = boardT s / lit 1000 / (kCu s * lit 1e-18))) /\
  (let r := res (T:=R) initial in
   Do r = 0.35 /\
   A_via_mm2 r = PI / 4 * (0.35 * 0.35 - 0.3 * 0.3) /\
   A_total_m2 r = 16 * A_via_mm2 r * 1e-6 /\
   Rth_cond r = 0.0016 / (385 * A_total_m2 r))%R /\
  (let r := res (T:=float) initial in
   Do r = 0.35 /\
   A_via_mm2 r = 3.141592653589793 / 4 * (0.35 * 0.35 - 0.3 * 0.3) /\
   A_total_m2 r = 16 * A_via_mm2 r * 1e-6 /\
   Rth_cond r = 0.0016 / (385 * A_total_m2 r))%float.
Proof.
  split; [|split].
  - intros T N s r. subst r. unfold res. cbn [Do Di A_via_mm2 A_total_m2 Rth_cond].
    do 5 (split; [reflexivity|]).
    split; intros Hf.
    + rewrite (js_or_truthy _ _ Hf). reflexivity.
    + rewrite (js_or_falsy _ _ Hf). reflexivity.
  - cbv zeta. unfold res.
    cbn [Do Di A_via_mm2 A_total_m2 Rth_cond initial n hole plate boardT kCu].
    pose proof PI_RGT_0 as Hpi.
    rewrite (js_or_truthy (N:=Exact)).
    + unfold K_CU. exact_ops.
      split; [field|]. split; [field|]. split; [field|].
      field. lra.
    + apply falsy_Exact. exact_ops. lra.
  - cbv zeta. repeat split; reflexivity.
Qed.

(** C2, counterexample to the quotient without the floor: with no via the
    total area is 0 and the closure divides by [385 * 1e-18], while
    [boardT/1000 / (kCu * A_total_m2)] is a division by zero. *)
Lemma via_count_zero_divides_by_floor :
  let s := {| n := 0; hole := 0.3; plate := 0.025; boardT := 1.6;
              kCu := 385 |}%float in
  let r := res s in
  (A_total_m2 r = 0 /\
   Rth_cond r = 4155844155844.1558 /\
   boardT s / 1000 / (kCu s * A_total_m2 r) = infinity /\
   Rth_cond r <> boardT s / 1000 / (kCu s * A_total_m2 r))%float.
Proof.
  cbv zeta. do 3 (split; [reflexivity|]).
  intros E. apply (f_equal PrimFloat.is_infinity) in E.
  vm_compute in E. discriminate E.
Qed.

End ThermalVia.

(** ** IPC-2221: resistance, power loss and current density *)

Section Ipc2221Resistance.
Import Ipc2221Calculator.

(** C4, as the closure computes it. The cross-section is the thickness
    [thicknessOz * 0.0348] mm times the width, both over 1000; the
    resistance at 20 degrees is [(length/1000) * 1.68e-8] over the
    cross-section and the current density is the current over it, 1e-18
    standing in for a falsy cross-section: the quotients by the
    cross-section itself are what a truthy one gives. The resistance at
    [ambient + tempRise] is the one at 20 degrees times
    [1 + 0.0039 * (ambient + tempRise - 20)], and each power loss is
    [current * current] times the resistance. *)
Theorem trace_resistance_with_floor :
  forall (T : Type) (N : JsNumber T) (P : JsMathPow T) (s : State T),
    let r := results s in
    let cs := crossSection_m2 s in
    cs = (thicknessOz s * lit 0.0348 / lit 1000) * (width_mm r / lit 1000) /\
    R20 r = length s / lit 1000 * lit 1.68e-8 / (cs || lit 1e-18) /\
    J r = current s / (cs || lit 1e-18) /\
    (falsy cs = false ->
       R20 r = length s / lit 1000 * lit 1.68e-8 / cs /\
       J r = current s / cs) /\
    (falsy cs = true ->
       R20 r = length s / lit 1000 * lit 1.68e-8 / lit 1e-18 /\
       J r = current s / lit 1e-18) /\
    R_T r = R20 r * (lit 1 + lit 0.0039 * (ambient s + tempRise s - lit 20)) /\
    P20 r = current s * current s * R20 r /\
    P_T r = current s * current s * R_T r.
Proof.
  intros T N P s r cs. subst r cs.
  unfold crossSection_m2, results, ozToMm, RHO_CU_20C, ALPHA_CU.
  cbn [width_mm R20 R_T P20 P_T J].
  do 3 (split; [reflexivity|]).
  split; [|split]; [intros Hf .. | repeat split].
  - rewrite (js_or_truthy _ _ Hf). split; reflexivity.
  - rewrite (js_or_falsy _ _ Hf). split; reflexivity.
Qed.

(** With a copper weight of 0 the cross-section is NaN at binary64,
    whatever [Math.pow] returns: the width is an infinity or NaN, and 0 times
    it is NaN. *)
Lemma zero_thickness_cross_section (P : JsMathPow float) (s : State float) :
  thicknessOz s = 0%float -> crossSection_m2 s = nan.
Proof.
  intros Ht. unfold crossSection_m2, results, ozToMm, milToMm.
  cbn [width_mm]. rewrite Ht.
  set (a := Math_pow _ _). clearbody a.
  cbn [lit add sub mul div Binary64].
  change (0 * of_Q 1.378)%float with 0%float.
  destruct (div_by_zero a) as [-> | [-> | ->]]; reflexivity.
Qed.

(** The two quotients of the closure, in terms of its cross-section. *)
Lemma trace_quotients {T : Type} {N : JsNumber T} {P : JsMathPow T} (s : State T) :
  R20 (results s) =
    length s / lit 1000 * RHO_CU_20C / (crossSection_m2 s || lit 1e-18) /\
  J (results s) = current s / (crossSection_m2 s || lit 1e-18).
Proof. split; reflexivity. Qed.

(** C4, counterexample to the quotients without the floor: with a copper
    weight of 0 the cross-section is NaN, the closure divides by 1e-18 and
    returns 840000000 ohm and 3e19 A/m^2, while the quotients by the
    cross-section itself are NaN. *)
Lemma zero_thickness_divides_by_floor :
  let s := {| current := 30; tempRise := 10; layer := "external";
              thicknessOz := 0; length := 50; ambient := 25 |}%float in
  (forall P : JsMathPow float,
     crossSection_m2 s = nan /\
     R20 (results s) = 840000000%float /\
     J (results s) = 2.9999999999999996e+19%float) /\
  (forall P : JsMathPow float,
     (length s / 1000 * 1.68e-8 / crossSection_m2 s)%float = nan /\
     (current s / crossSection_m2 s)%float = nan) /\
  (forall P : JsMathPow float,
     R20 (results s) <> (length s / 1000 * 1.68e-8 / crossSection_m2 s)%float /\
     J (results s) <> (current s / crossSection_m2 s)%float).
Proof.
  cbv zeta.
  set (s := {| current := 30%float; tempRise := 10%float; layer := "external";
               thicknessOz := 0%float; length := 50%float; ambient := 25%float |}).
  split; [|split]; intros P;
    pose proof (zero_thickness_cross_section P s eq_refl) as Hnan.
  - split; [exact Hnan|].
    destruct (trace_quotients s) as [-> ->].
    rewrite Hnan. split; reflexivity.
  - rewrite Hnan. split; reflexivity.
  - destruct (trace_quotients s) as [-> ->]. rewrite Hnan.
    split; intros E; apply (f_equal PrimFloat.is_nan) in E;
      vm_compute in E; discriminate E.
Qed.

End Ipc2221Resistance.

(** ** The floor policy across the three closures *)

Section FloorPolicy.

Import ThermalViaCalculator.

(** With a via count of 0 the total copper area is a zero or NaN at
    binary64, whatever the other inputs. *)
Lemma no_via_total_area_falsy (s : State float) :
  n s = 0%float -> falsy (A_total_m2 (res s)) = true.
Proof.
  intros Hn. unfold res. cbn [A_total_m2]. rewrite Hn.
  set (a := Math_PI / lit 4 * _). clearbody a.
  cbn [lit add sub mul div Binary64].
  destruct (mul_by_zero a) as [-> | [-> | ->]]; reflexivity.
Qed.

(** C5, as the closures compute it. Every closure is a total function: it
    returns a record of numbers at every state. Whenever the area it
    divides by is falsy (a zero or NaN), 1e-18 takes its place: the two
    trace quotients and the two copper resistances are their numerators over
    1e-18 and the via resistance is [boardT/1000] over [kCu * 1e-18]. A via
    count of 0 makes the total area falsy at binary64 whatever the other
    inputs. At the states of the scenarios with no via, with a trace of
    zero width, and with a copper weight of 0, the results are finite:
    4155844155844.1558 K/W, 1680000000 and 2073120000.0000002 ohm,
    840000000 ohm and 3e19 A/m^2. *)
Theorem falsy_area_divides_by_floor :
  (forall (T : Type) (N : JsNumber T) (P : JsMathPow T)
          (s : Ipc2221Calculator.State T),
     falsy (Ipc2221Calculator.crossSection_m2 s) = true ->
     Ipc2221Calculator.R20 (Ipc2221Calculator.results s) =
       Ipc2221Calculator.length s / lit 1000 * lit 1.68e-8 / lit 1e-18 /\
     Ipc2221Calculator.J (Ipc2221Calculator.results s) =
       Ipc2221Calculator.current s / lit 1e-18) /\
  (forall (T : Type) (N : JsNumber T) (s : CopperTempCalculator.State T),
     let r := CopperTempCalculator.res s in
     let R_at t :=
       CopperTempCalculator.rho20 s
       * (lit 1 + CopperTempCalculator.alpha s * (t - lit 20))
       * (CopperTempCalculator.length s / lit 1000) in
     falsy (CopperTempCalculator.A r) = true ->
     CopperTempCalculator.R1 r = R_at (CopperTempCalculator.t1 s) / lit 1e-18 /\
     CopperTempCalculator.R2 r = R_at (CopperTempCalculator.t2 s) / lit 1e-18) /\
  (forall (T : Type) (N : JsNumber T) (s : State T),
     falsy (A_total_m2 (res s)) = true ->
     Rth_cond (res s) = boardT s / lit 1000 / (kCu s * lit 1e-18)) /\
  (forall s : State float,
     n s = 0%float ->
     falsy (A_total_m2 (res s)) = true /\
     Rth_cond (res s) = (boardT s / 1000 / (kCu s * 1e-18))%float) /\
  (let r := res {| n := 0; hole := 0.3; plate := 0.025; boardT := 1.6;
                   kCu := 385 |}%float in
   Rth_cond r = 4155844155844.1558%float /\
   PrimFloat.is_finite (Rth_cond r) = true) /\
  (let r := CopperTempCalculator.res
              {| CopperTempCalculator.rho20 := 1.68e-8;
                 CopperTempCalculator.alpha := 0.0039;
                 CopperTempCalculator.t1 := 20;
                 CopperTempCalculator.t2 := 80;
                 CopperTempCalculator.length := 100;
                 CopperTempCalculator.width := 0;
                 CopperTempCalculator.thickness := 0.070 |}%float in
   CopperTempCalculator.A r = 0%float /\
   CopperTempCalculator.R1 r = 1680000000%float /\
   CopperTempCalculator.R2 r = 2073120000.0000002%float) /\
  (forall P : JsMathPow float,
     let s := {| Ipc2221Calculator.current := 30;
                 Ipc2221Calculator.tempRise := 10;
                 Ipc2221Calculator.layer := "external";
                 Ipc2221Calculator.thicknessOz := 0;
                 Ipc2221Calculator.length := 50;
                 Ipc2221Calculator.ambient := 25 |}%float in
     falsy (Ipc2221Calculator.crossSection_m2 s) = true /\
     Ipc2221Calculator.R20 (Ipc2221Calculator.results s) = 840000000%float /\
     Ipc2221Calculator.J (Ipc2221Calculator.results s)
       = 2.9999999999999996e+19%float).
Proof.
  split; [|split; [|split; [|split; [|split; [|split]]]]].
  - intros T N P s Hf.
    destruct (trace_quotients s) as [-> ->].
    rewrite (js_or_falsy _ _ Hf). split; reflexivity.
  - intros T N s r R_at Hf. subst r R_at. revert Hf.
    unfold CopperTempCalculator.res.
    cbn [CopperTempCalculator.A CopperTempCalculator.R1 CopperTempCalculator.R2].
    intros Hf. rewrite (js_or_falsy _ _ Hf). split; reflexivity.
  - intros T N s. unfold res. cbn [A_total_m2 Rth_cond].
    intros Hf. rewrite (js_or_falsy _ _ Hf). reflexivity.
  - intros s Hn. pose proof (no_via_total_area_falsy s Hn) as Hf.
    split; [exact Hf|]. revert Hf. unfold res. cbn [A_total_m2 Rth_cond].
    intros Hf. rewrite (js_or_falsy _ _ Hf). reflexivity.
  - cbv zeta. split; reflexivity.
  - cbv zeta. repeat split; reflexivity.
  - intros P s.
    pose proof (zero_thickness_cross_section P s eq_refl) as Hnan.
    destruct (trace_quotients s) as [-> ->].
    rewrite Hnan. repeat split; reflexivity.
Qed.

(** C5, counterexample to a finite result at every falsy area: with no via
    and a conductivity of 0 the total area is 0, the floor takes its place,
    and the resistance is [0.0016 / (0 * 1e-18)], an infinity. *)
Lemma no_via_zero_conductivity_is_infinite :
  let r := res {| n := 0; hole := 0.3; plate := 0.025; boardT := 1.6;
                  kCu := 0 |}%float in
  A_total_m2 r = 0%float /\
  falsy (A_total_m2 r) = true /\
  Rth_cond r = infinity /\
  PrimFloat.is_finite (Rth_cond r) = false.
Proof. cbv zeta. repeat split; reflexivity. Qed.

(** C10, as the closures compute it. At binary64 the floor takes the place
    of every falsy area, NaN and the two zeros alike, and the floored area
    is never a zero or NaN. It is the divisor of the two trace quotients
    and of the two copper resistances. In the via closure the divisor is
    [kCu] times the floored area. A copper weight of 0 is a state whose
    cross-section is NaN: the trace quotients then divide by 1e-18. *)
Theorem floor_replaces_every_falsy_area :
  (forall x : float, PrimFloat.is_nan x = true -> (x || lit 1e-18) = 1e-18%float) /\
  (forall x : float, PrimFloat.is_zero x = true -> (x || lit 1e-18) = 1e-18%float) /\
  (forall x : float,
     PrimFloat.is_zero (x || lit 1e-18) = false /\
     PrimFloat.is_nan (x || lit 1e-18) = false) /\
  (forall (P : JsMathPow float) (s : Ipc2221Calculator.State float),
     let d := Ipc2221Calculator.crossSection_m2 s || lit 1e-18 in
     Ipc2221Calculator.R20 (Ipc2221Calculator.results s) =
       (Ipc2221Calculator.length s / 1000 * 1.68e-8 / d)%float /\
     Ipc2221Calculator.J (Ipc2221Calculator.results s) =
       (Ipc2221Calculator.current s / d)%float /\
     PrimFloat.is_zero d = false /\ PrimFloat.is_nan d = false) /\
  (forall s : CopperTempCalculator.State float,
     let r := CopperTempCalculator.res s in
     let d := CopperTempCalculator.A r || lit 1e-18 in
     let R_at t :=
       (CopperTempCalculator.rho20 s
        * (1 + CopperTempCalculator.alpha s * (t - 20))
        * (CopperTempCalculator.length s / 1000))%float in
     CopperTempCalculator.R1 r = (R_at (CopperTempCalculator.t1 s) / d)%float /\
     CopperTempCalculator.R2 r = (R_at (CopperTempCalculator.t2 s) / d)%float /\
     PrimFloat.is_zero d = false /\ PrimFloat.is_nan d = false) /\
  (forall s : State float,
     let a := A_total_m2 (res s) || lit 1e-18 in
     Rth_cond (res s) = (boardT s / 1000 / (kCu s * a))%float /\
     PrimFloat.is_zero a = false /\ PrimFloat.is_nan a = false) /\
  (forall (P : JsMathPow float) (s : Ipc2221Calculator.State float),
     Ipc2221Calculator.thicknessOz s = 0%float ->
     PrimFloat.is_nan (Ipc2221Calculator.crossSection_m2 s) = true /\
     Ipc2221Calculator.R20 (Ipc2221Calculator.results s) =
       (Ipc2221Calculator.length s / 1000 * 1.68e-8 / 1e-18)%float /\
     Ipc2221Calculator.J (Ipc2221Calculator.results s) =
       (Ipc2221Calculator.current s / 1e-18)%float).
Proof.
  split; [|split; [|split; [|split; [|split; [|split]]]]].
  - intros x Hx. apply js_or_falsy. rewrite falsy_Binary64, Hx.
    apply orb_true_r.
  - intros x Hx. apply js_or_falsy. rewrite falsy_Binary64, Hx. reflexivity.
  - exact floored_Binary64.
  - intros P s d. subst d.
    destruct (trace_quotients s) as [-> ->].
    split; [reflexivity|]. split; [reflexivity|]. apply floored_Binary64.
  - intros s r d R_at. subst r d R_at.
    split; [reflexivity|]. split; [reflexivity|]. apply floored_Binary64.
  - intros s a. subst a. split; [reflexivity|]. apply floored_Binary64.
  - intros P s Ht.
    pose proof (zero_thickness_cross_section P s Ht) as Hnan.
    destruct (trace_quotients s) as [-> ->].
    rewrite Hnan. repeat split; reflexivity.
Qed.

(** C10, counterexample to a divisor that is never a zero: in the via
    closure, with a board thickness and a conductivity of 0 and no NaN
    among the inputs, the divisor [kCu * A_total_m2] is 0 and the
    resistance is NaN. *)
Lemma via_divisor_zero_without_nan_input :
  let s := {| n := 16; hole := 0.3; plate := 0.025; boardT := 0;
              kCu := 0 |}%float in
  let r := res s in
  existsb PrimFloat.is_nan [n s; hole s; plate s; boardT s; kCu s] = false /\
  falsy (A_total_m2 r) = false /\
  (kCu s * (A_total_m2 r || lit 1e-18))%float = 0%float /\
  Rth_cond r = nan.
Proof. cbv zeta. repeat split; reflexivity. Qed.

End FloorPolicy.

(** ** IPC-2221: required area and width *)

Section Ipc2221Exact.
Import Ipc2221Calculator.
Local Open Scope R_scope.

Lemma Exact_pow_pos (x y : R) : 0 < x -> Math_pow x y = Rpower x y.
Proof.
  intros Hx. cbn. destruct (Rlt_dec 0 x) as [_ | Hn]; [reflexivity | contradiction].
Qed.

Lemma Rpower_pos (x y : R) : 0 < Rpower x y.
Proof. unfold Rpower. apply exp_pos. Qed.

Lemma k_Exact_pos (s : State R) : 0 < k s.
Proof.
  unfold k. destruct (String.eqb (layer s) "external");
    unfold K_EXT, K_INT; exact_ops; lra.
Qed.

Lemma IPC_B_Exact : @IPC_B R Exact = 0.44.
Proof. unfold IPC_B. exact_ops. lra. Qed.

Lemma IPC_exponent_Exact : (lit 1 / @IPC_C R Exact)%js = 1 / 0.725.
Proof. unfold IPC_C. exact_ops. lra. Qed.

(** The area at the exact instance, for a positive current and rise. *)
Lemma area_Exact (s : State R) :
  0 < current s -> 0 < tempRise s ->
  area_mils2 (results s) =
    Rpower (current s / (k s * Rpower (tempRise s) 0.44)) (1 / 0.725).
Proof.
  intros Hc Hr. unfold results. cbn [area_mils2].
  rewrite (Exact_pow_pos (tempRise s)) by exact Hr.
  pose proof (k_Exact_pos s) as Hk.
  pose proof (Rpower_pos (tempRise s) (@IPC_B R Exact)) as Hp.
  rewrite Exact_pow_pos.
  - rewrite IPC_B_Exact, IPC_exponent_Exact. reflexivity.
  - cbn [div mul Exact]. apply Rdiv_lt_0_compat; [exact Hc|].
    apply Rmult_lt_0_compat; assumption.
Qed.

Lemma width_mil_Exact (s : State R) :
  width_mil (results s) = area_mils2 (results s) / (thicknessOz s * 1.378).
Proof. unfold results. cbn [width_mil area_mils2]. exact_ops. reflexivity. Qed.

Lemma width_mm_Exact (s : State R) :
  width_mm (results s) = width_mil (results s) * 0.0254.
Proof.
  unfold results, milToMm. cbn [width_mm width_mil]. exact_ops. reflexivity.
Qed.

(** C1. The area in square mils is
    [(current / (k * tempRise^0.44))^(1/0.725)] with [k] 0.048 on an external
    layer and 0.024 on an internal one; the width in mils is the area over
    [thicknessOz * 1.378], and the width in mm is the width in mils times
    0.0254. This holds of the closure at every instance, and at the exact
    instance the powers are the real powers of a positive base. At the
    initial state (30 A, 10 degrees, external, 2 oz) the area is
    [(30 / (0.048 * 10^0.44))^(1/0.725)] and the width the area over
    [2 * 1.378]. *)
Theorem trace_width_area_and_width :
  (forall (T : Type) (N : JsNumber T) (P : JsMathPow T) (s : State T),
     let r := results s in
     (layer s = "external"%string -> k s = lit 0.048) /\
     (layer s = "internal"%string -> k s = lit 0.024) /\
     area_mils2 r =
       Math_pow (current s / (k s * Math_pow (tempRise s) (lit 0.44)))
                (lit 1 / lit 0.725) /\
     width_mil r = area_mils2 r / (thicknessOz s * lit 1.378) /\
     width_mm r = width_mil r * lit 0.0254)%js /\
  (forall (T : Type) (N : JsNumber T) (P : JsMathPow T),
     let r := results (T:=T) initial in
     area_mils2 r =
       Math_pow (lit 30 / (lit 0.048 * Math_pow (lit 10) (lit 0.44)))
                (lit 1 / lit 0.725) /\
     width_mil r = area_mils2 r / (lit 2 * lit 1.378))%js /\
  (forall s : State R,
     0 < current s -> 0 < tempRise s ->
     let r := results s in
     area_mils2 r =
       Rpower (current s / (k s * Rpower (tempRise s) 0.44)) (1 / 0.725) /\
     width_mil r = area_mils2 r / (thicknessOz s * 1.378) /\
     width_mm r = width_mil r * 0.0254) /\
  (let r := results (T:=R) initial in
   area_mils2 r = Rpower (30 / (0.048 * Rpower 10 0.44)) (1 / 0.725) /\
   width_mil r = area_mils2 r / (2 * 1.378)).
Proof.
  split; [|split; [|split]].
  - intros T N P s r. split; [apply k_external|]. split; [apply k_internal|].
    subst r. unfold results, milToMm, IPC_B, IPC_C.
    cbn [area_mils2 width_mil width_mm]. repeat split.
  - intros T N P. cbv zeta. rewrite <- (k_external initial eq_refl).
    unfold results, IPC_B, IPC_C. cbn [area_mils2 width_mil width_mm].
    split; reflexivity.
  - intros s Hc Hr r. subst r.
    split; [apply area_Exact; assumption|].
    split; [apply width_mil_Exact | apply width_mm_Exact].
  - cbv zeta. split.
    + rewrite area_Exact by (cbn [initial current tempRise]; exact_ops; lra).
      rewrite (k_external (T:=R) initial eq_refl).
      cbn [initial current tempRise]. exact_ops.
      rewrite !Rinv_1, !Rmult_1_r. reflexivity.
    + rewrite width_mil_Exact. cbn [initial thicknessOz]. exact_ops.
      rewrite !Rinv_1, !Rmult_1_r. reflexivity.
Qed.





End Ipc2221Exact.

(** ** Memoisation: the value a render shows *)

#[global] Instance Binary64_sameValue : SameValueSound float.
Proof. intros x y Hxy. apply FloatAxioms.Leibniz.eqb_spec. exact Hxy. Qed.

#[global] Instance Exact_sameValue : SameValueSound R.
Proof.
  intros x y. cbn. unfold Req_bool.
  destruct (Req_dec_T x y); [trivial | discriminate].
Qed.

Section Memo.
Context {T : Type} {N : JsNumber T} {Sound : SameValueSound T}.

Lemma Object_is_sound (a b : JsValue T) : Object_is a b = true -> a = b.
Proof.
  destruct a as [x | s], b as [y | t]; cbn; try discriminate.
  - intros Hxy. f_equal. apply sameValue_sound. exact Hxy.
  - intros Hst. f_equal. apply String.eqb_eq. exact Hst.
Qed.

Lemma areHookInputsEqual_sound (next prev : list (JsValue T)) :
  List.length next = List.length prev ->
  areHookInputsEqual next prev = true -> next = prev.
Proof.
  revert prev. induction next as [| a next IH]; intros [| b prev] Hlen Heq;
    try discriminate; [reflexivity|].
  cbn in Heq. destruct (Object_is a b) eqn:Hab; [|discriminate].
  apply Object_is_sound in Hab. subst b. f_equal.
  apply IH; [now injection Hlen | exact Heq].
Qed.

(** A component: its state, the closure it memoises and the dependency
    array it passes, which has a fixed length and names every state cell the
    closure reads. *)
Section Component.
Context {S V : Type} (calc : S -> V) (deps : S -> list (JsValue T)).
Hypothesis deps_length : forall s s', List.length (deps s) = List.length (deps s').
Hypothesis deps_cover : forall s s', deps s = deps s' -> calc s = calc s'.

Lemma render_value (s : S) (cell : MemoCell T V) :
  cell_ok calc deps cell -> fst (render calc deps s cell) = calc s.
Proof.
  unfold render, useMemo. destruct cell as [[v d] |]; [|reflexivity].
  intros (s0 & -> & ->).
  destruct (areHookInputsEqual (deps s) (deps s0)) eqn:Heq; [|reflexivity].
  cbn. symmetry. apply deps_cover.
  apply areHookInputsEqual_sound; [apply deps_length | exact Heq].
Qed.

Lemma render_cell_ok (s : S) (cell : MemoCell T V) :
  cell_ok calc deps cell -> cell_ok calc deps (snd (render calc deps s cell)).
Proof.
  unfold render, useMemo. destruct cell as [[v d] |].
  - intros Hok. destruct (areHookInputsEqual (deps s) d); [exact Hok|].
    cbn. exists s. split; reflexivity.
  - intros _. cbn. exists s. split; reflexivity.
Qed.

Lemma after_renders_ok (history : list S) (cell : MemoCell T V) :
  cell_ok calc deps cell ->
  cell_ok calc deps (after_renders (render calc deps) history cell).
Proof.
  revert cell. induction history as [| s history IH]; intros cell Hok.
  - exact Hok.
  - cbn. apply IH. apply render_cell_ok. exact Hok.
Qed.

Lemma render_after_history (history : list S) (s : S) :
  fst (render calc deps s (after_renders (render calc deps) history None))
  = calc s.
Proof. apply render_value. apply after_renders_ok. exact I. Qed.

End Component.
End Memo.

(** ** Every result is a function of the state *)

Section Purity.
Context {T : Type} {N : JsNumber T} {P : JsMathPow T}.

Lemma Ipc2221_deps_cover (s s' : Ipc2221Calculator.State T) :
  Ipc2221Calculator.deps s = Ipc2221Calculator.deps s' ->
  Ipc2221Calculator.results s = Ipc2221Calculator.results s'.
Proof.
  destruct s, s'. unfold Ipc2221Calculator.deps. cbn.
  intros Heq. injection Heq as -> -> -> -> -> ->. reflexivity.
Qed.

Lemma CopperTemp_deps_cover (s s' : CopperTempCalculator.State T) :
  CopperTempCalculator.deps s = CopperTempCalculator.deps s' ->
  CopperTempCalculator.res s = CopperTempCalculator.res s'.
Proof.
  destruct s, s'. unfold CopperTempCalculator.deps. cbn.
  intros Heq. injection Heq as -> -> -> -> -> -> ->. reflexivity.
Qed.

Lemma ThermalVia_deps_cover (s s' : ThermalViaCalculator.State T) :
  ThermalViaCalculator.deps s = ThermalViaCalculator.deps s' ->
  ThermalViaCalculator.res s = ThermalViaCalculator.res s'.
Proof.
  destruct s, s'. unfold ThermalViaCalculator.deps. cbn.
  intros Heq. injection Heq as -> -> -> -> ->. reflexivity.
Qed.

End Purity.

(** C8. Whatever states a component rendered before, the value its
    [useMemo] call hands to a render is the closure applied to the state of
    that render: the memo cell, the only thing kept between renders, never
    shows in the result. Hence two renders at the same state show the same
    result, after any two histories. *)
Theorem result_is_function_of_state :
  forall (T : Type) (N : JsNumber T) (P : JsMathPow T),
    SameValueSound T ->
    (forall history s,
       fst (Ipc2221_render s (after_renders Ipc2221_render history None))
       = Ipc2221Calculator.results s) /\
    (forall history s,
       fst (CopperTemp_render s (after_renders CopperTemp_render history None))
       = CopperTempCalculator.res s) /\
    (forall history s,
       fst (ThermalVia_render s (after_renders ThermalVia_render history None))
       = ThermalViaCalculator.res s) /\
    (forall history history' s s',
       s = s' ->
       fst (Ipc2221_render s (after_renders Ipc2221_render history None))
       = fst (Ipc2221_render s' (after_renders Ipc2221_render history' None))) /\
    (forall history history' s s',
       s = s' ->
       fst (CopperTemp_render s (after_renders CopperTemp_render history None))
       = fst (CopperTemp_render s' (after_renders CopperTemp_render history' None))) /\
    (forall history history' s s',
       s = s' ->
       fst (ThermalVia_render s (after_renders ThermalVia_render history None))
       = fst (ThermalVia_render s' (after_renders ThermalVia_render history' None))).
Proof.
  intros T N P Sound.
  assert (H1 : forall history s,
             fst (Ipc2221_render s (after_renders Ipc2221_render history None))
             = Ipc2221Calculator.results s).
  { intros history s.
    apply (render_after_history Ipc2221Calculator.results Ipc2221Calculator.deps).
    - reflexivity.
    - apply Ipc2221_deps_cover. }
  assert (H2 : forall history s,
             fst (CopperTemp_render s (after_renders CopperTemp_render history None))
             = CopperTempCalculator.res s).
  { intros history s.
    apply (render_after_history CopperTempCalculator.res CopperTempCalculator.deps).
    - reflexivity.
    - apply CopperTemp_deps_cover. }
  assert (H3 : forall history s,
             fst (ThermalVia_render s (after_renders ThermalVia_render history None))
             = ThermalViaCalculator.res s).
  { intros history s.
    apply (render_after_history ThermalViaCalculator.res ThermalViaCalculator.deps).
    - reflexivity.
    - apply ThermalVia_deps_cover. }
  repeat split; try assumption; intros history history' s s' <-.
  - rewrite !H1. reflexivity.
  - rewrite !H2. reflexivity.
  - rewrite !H3. reflexivity.
Qed.

Lemma result_is_function_of_state_witness :
  let s := Ipc2221Calculator.initial (T:=R) in
  let s' := {| Ipc2221Calculator.current := 40%R;
               Ipc2221Calculator.tempRise := 10%R;
               Ipc2221Calculator.layer := "internal";
               Ipc2221Calculator.thicknessOz := 1%R;
               Ipc2221Calculator.length := 50%R;
               Ipc2221Calculator.ambient := 25%R |} in
  fst (Ipc2221_render s (after_renders Ipc2221_render [s; s'; s'] None))
  = Ipc2221Calculator.results s.
Proof.
  cbv zeta.
  exact (proj1 (result_is_function_of_state R Exact Exact_pow Exact_sameValue)
               _ _).
Defined.

(** ** Further properties *)

Section EqualTemperatures.
Import CopperTempCalculator.

(** When the two temperatures are equal by [==], which holds +0 and -0
    equal, the two resistances are still the same binary64 value. *)
Lemma equal_temperatures_same_resistance (s : State float) :
  PrimFloat.eqb (t1 s) (t2 s) = true -> R1 (res s) = R2 (res s).
Proof.
  intros Heq. unfold res. cbn [R1 R2]. cbn [lit add sub mul div Binary64].
  change (of_Q 20) with 20%float.
  rewrite (sub_20_of_equal _ _ Heq). reflexivity.
Qed.

Lemma equal_temperatures_same_resistance_witness :
  let s := {| rho20 := 1.68e-8; alpha := 0.0039; t1 := 0; t2 := -0;
              length := 100; width := 3; thickness := 0.070 |}%float in
  R1 (res s) = R2 (res s).
Proof.
  exact (equal_temperatures_same_resistance
           {| rho20 := 1.68e-8; alpha := 0.0039; t1 := 0; t2 := -0;
              length := 100; width := 3; thickness := 0.070 |}%float eq_refl).
Defined.

(** When the resistivity is NaN the two resistances are the same value,
    NaN, which [==] does not hold equal to itself. *)
Lemma nan_resistances_same_value :
  let s := {| rho20 := nan; alpha := 0.0039; t1 := 20; t2 := 20;
              length := 100; width := 3; thickness := 0.070 |}%float in
  R1 (res s) = nan /\ R2 (res s) = nan /\
  PrimFloat.eqb (R1 (res s)) (R2 (res s)) = false.
Proof. cbv zeta. repeat split; reflexivity. Qed.

End EqualTemperatures.

(** ** Binary64 arithmetic: commutativity and NaN operands *)

Section Binary64Arithmetic.
Local Open Scope float_scope.

Lemma float_mul_comm (x y : float) : x * y = y * x.
Proof.
  apply Prim2SF_inj. rewrite !FloatAxioms.mul_spec.
  destruct (Prim2SF x) as [sx | sx | | sx mx ex];
    destruct (Prim2SF y) as [sy | sy | | sy my ey]; cbn;
    rewrite ?(xorb_comm sx sy), ?(Pos.mul_comm mx my), ?(Z.add_comm ex ey);
    reflexivity.
Qed.

Lemma mul_nan_l (a : float) : nan * a = nan.
Proof. apply Prim2SF_inj. rewrite FloatAxioms.mul_spec. reflexivity. Qed.

Lemma mul_nan_r (a : float) : a * nan = nan.
Proof. rewrite float_mul_comm. apply mul_nan_l. Qed.

Lemma div_nan_l (a : float) : nan / a = nan.
Proof. apply Prim2SF_inj. rewrite FloatAxioms.div_spec. reflexivity. Qed.

Lemma div_nan_r (a : float) : a / nan = nan.
Proof.
  apply Prim2SF_inj. rewrite FloatAxioms.div_spec.
  change (Prim2SF nan) with S754_nan. destruct (Prim2SF a); reflexivity.
Qed.

Lemma add_nan_l (a : float) : nan + a = nan.
Proof. apply Prim2SF_inj. rewrite FloatAxioms.add_spec. reflexivity. Qed.

Lemma add_nan_r (a : float) : a + nan = nan.
Proof.
  apply Prim2SF_inj. rewrite FloatAxioms.add_spec.
  change (Prim2SF nan) with S754_nan. destruct (Prim2SF a); reflexivity.
Qed.

Lemma sub_nan_l (a : float) : nan - a = nan.
Proof. apply Prim2SF_inj. rewrite FloatAxioms.sub_spec. reflexivity. Qed.

Lemma sub_nan_r (a : float) : a - nan = nan.
Proof.
  apply Prim2SF_inj. rewrite FloatAxioms.sub_spec.
  change (Prim2SF nan) with S754_nan. destruct (Prim2SF a); reflexivity.
Qed.

Lemma js_or_nan (b : float) : js_or nan b = b.
Proof. reflexivity. Qed.

End Binary64Arithmetic.

Create Rewrite HintDb nan_calc.
#[global] Hint Rewrite mul_nan_l mul_nan_r div_nan_l div_nan_r
  add_nan_l add_nan_r sub_nan_l sub_nan_r : nan_calc.

(** ** The trace calculator against the copper calculator *)

Section Agreement.
Local Open Scope R_scope.

Lemma copper_area_of_trace (s : Ipc2221Calculator.State R) :
  CopperTempCalculator.A
    (CopperTempCalculator.res
       {| CopperTempCalculator.rho20 := RHO_CU_20C;
          CopperTempCalculator.alpha := ALPHA_CU;
          CopperTempCalculator.t1 := lit 20;
          CopperTempCalculator.t2 :=
            (Ipc2221Calculator.ambient s + Ipc2221Calculator.tempRise s)%js;
          CopperTempCalculator.length := Ipc2221Calculator.length s;
          CopperTempCalculator.width :=
            Ipc2221Calculator.width_mm (Ipc2221Calculator.results s);
          CopperTempCalculator.thickness :=
            ozToMm (Ipc2221Calculator.thicknessOz s) |})
  = Ipc2221Calculator.crossSection_m2 s.
Proof.
  unfold CopperTempCalculator.res, Ipc2221Calculator.crossSection_m2.
  cbn [CopperTempCalculator.A CopperTempCalculator.width
       CopperTempCalculator.thickness].
  cbn [mul Exact]. ring.
Qed.

(** The copper calculator, given the copper constants of the trace
    calculator, 20 degrees and ambient plus rise as its two temperatures,
    the trace length, the computed width and the copper thickness in
    millimetres, returns the trace calculator's two resistances: as real
    numbers both, and in binary64 the one at 20 degrees bit for bit,
    whatever [Math.pow] returns. *)
Lemma trace_resistance_is_copper_resistance :
  (forall s : Ipc2221Calculator.State R,
     let c := CopperTempCalculator.res
       {| CopperTempCalculator.rho20 := RHO_CU_20C;
          CopperTempCalculator.alpha := ALPHA_CU;
          CopperTempCalculator.t1 := lit 20;
          CopperTempCalculator.t2 :=
            (Ipc2221Calculator.ambient s + Ipc2221Calculator.tempRise s)%js;
          CopperTempCalculator.length := Ipc2221Calculator.length s;
          CopperTempCalculator.width :=
            Ipc2221Calculator.width_mm (Ipc2221Calculator.results s);
          CopperTempCalculator.thickness :=
            ozToMm (Ipc2221Calculator.thicknessOz s) |} in
     let r := Ipc2221Calculator.results s in
     CopperTempCalculator.R1 c = Ipc2221Calculator.R20 r /\
     CopperTempCalculator.R2 c = Ipc2221Calculator.R_T r) /\
  (forall (P : JsMathPow float) (s : Ipc2221Calculator.State float),
     CopperTempCalculator.R1
       (CopperTempCalculator.res
          {| CopperTempCalculator.rho20 := RHO_CU_20C;
             CopperTempCalculator.alpha := ALPHA_CU;
             CopperTempCalculator.t1 := lit 20;
             CopperTempCalculator.t2 :=
               (Ipc2221Calculator.ambient s + Ipc2221Calculator.tempRise s)%js;
             CopperTempCalculator.length := Ipc2221Calculator.length s;
             CopperTempCalculator.width :=
               Ipc2221Calculator.width_mm (Ipc2221Calculator.results s);
             CopperTempCalculator.thickness :=
               ozToMm (Ipc2221Calculator.thicknessOz s) |})
     = Ipc2221Calculator.R20 (Ipc2221Calculator.results s)).
Proof.
  split.
  - intros s c r. subst c r.
    pose proof (copper_area_of_trace s) as HA.
    match goal with
    | |- CopperTempCalculator.R1 (CopperTempCalculator.res ?g) = _ /\ _ =>
        set (geometry := g) in *
    end.
    assert (H1 : CopperTempCalculator.R1 (CopperTempCalculator.res geometry)
                 = Ipc2221Calculator.R20 (Ipc2221Calculator.results s)).
    { destruct (trace_quotients s) as [-> _]. rewrite <- HA.
      unfold CopperTempCalculator.res, geometry.
      cbn [CopperTempCalculator.R1 CopperTempCalculator.A
           CopperTempCalculator.rho20 CopperTempCalculator.alpha
           CopperTempCalculator.t1 CopperTempCalculator.length
           CopperTempCalculator.width CopperTempCalculator.thickness].
      set (d := js_or _ _). unfold RHO_CU_20C, ALPHA_CU. exact_ops. decimals.
      unfold Rdiv. set (id := / d). field. }
    split; [exact H1|].
    change (Ipc2221Calculator.R_T (Ipc2221Calculator.results s))
      with (Ipc2221Calculator.R20 (Ipc2221Calculator.results s)
            * (lit 1 + ALPHA_CU
               * (Ipc2221Calculator.ambient s + Ipc2221Calculator.tempRise s
                  - lit 20)))%js.
    rewrite <- H1.
    unfold CopperTempCalculator.res, geometry.
    cbn [CopperTempCalculator.R1 CopperTempCalculator.R2 CopperTempCalculator.A
         CopperTempCalculator.rho20 CopperTempCalculator.alpha
         CopperTempCalculator.t1 CopperTempCalculator.t2
         CopperTempCalculator.length CopperTempCalculator.width
         CopperTempCalculator.thickness].
    set (d := js_or _ _). unfold RHO_CU_20C, ALPHA_CU. exact_ops. decimals.
    unfold Rdiv. set (id := / d). field.
  - intros P s.
    destruct (trace_quotients s) as [-> _].
    unfold CopperTempCalculator.res, Ipc2221Calculator.crossSection_m2.
    cbn [CopperTempCalculator.R1 CopperTempCalculator.A CopperTempCalculator.rho20
         CopperTempCalculator.alpha CopperTempCalculator.t1
         CopperTempCalculator.length CopperTempCalculator.width
         CopperTempCalculator.thickness].
    set (w := Ipc2221Calculator.width_mm _). set (t := ozToMm _).
    unfold RHO_CU_20C, ALPHA_CU. binary64_ops.
    change (of_Q 1.68e-8 * (of_Q 1 + of_Q 0.0039 * (of_Q 20 - of_Q 20)))%float
      with (of_Q 1.68e-8).
    rewrite (float_mul_comm (w / of_Q 1000) (t / of_Q 1000)).
    rewrite (float_mul_comm (of_Q 1.68e-8)
               (Ipc2221Calculator.length s / of_Q 1000)).
    reflexivity.
Qed.

End Agreement.

(** ** NaN inputs at binary64 *)

Section NaNInputs.
Local Open Scope float_scope.

(** A NaN among the inputs an area is computed from is hidden by the
    floor: the area is NaN and every quotient over it is its numerator
    over 1e-18.  This holds for the width and thickness of the copper
    calculator, for the count, hole and plating of the via calculator, and
    for the copper weight of the trace calculator, whatever [Math.pow]
    returns. *)
Lemma nan_geometry_is_floored :
  (forall s : CopperTempCalculator.State float,
     CopperTempCalculator.width s = nan \/ CopperTempCalculator.thickness s = nan ->
     let r := CopperTempCalculator.res s in
     let R_at t :=
       CopperTempCalculator.rho20 s
       * (1 + CopperTempCalculator.alpha s * (t - 20))
       * (CopperTempCalculator.length s / 1000) in
     CopperTempCalculator.A r = nan /\
     CopperTempCalculator.R1 r = R_at (CopperTempCalculator.t1 s) / 1e-18 /\
     CopperTempCalculator.R2 r = R_at (CopperTempCalculator.t2 s) / 1e-18) /\
  (forall s : ThermalViaCalculator.State float,
     ThermalViaCalculator.n s = nan \/ ThermalViaCalculator.hole s = nan
     \/ ThermalViaCalculator.plate s = nan ->
     let r := ThermalViaCalculator.res s in
     ThermalViaCalculator.A_total_m2 r = nan /\
     ThermalViaCalculator.Rth_cond r
     = ThermalViaCalculator.boardT s / 1000
       / (ThermalViaCalculator.kCu s * 1e-18)) /\
  (forall (P : JsMathPow float) (s : Ipc2221Calculator.State float),
     Ipc2221Calculator.thicknessOz s = nan ->
     let r := Ipc2221Calculator.results s in
     Ipc2221Calculator.crossSection_m2 s = nan /\
     Ipc2221Calculator.R20 r
     = Ipc2221Calculator.length s / 1000 * 1.68e-8 / 1e-18 /\
     Ipc2221Calculator.J r = Ipc2221Calculator.current s / 1e-18).
Proof.
  split; [|split].
  - intros s Hs r R_at. subst r R_at.
    assert (HA : CopperTempCalculator.A (CopperTempCalculator.res s) = nan).
    { unfold CopperTempCalculator.res. cbn [CopperTempCalculator.A]. binary64_ops.
      destruct Hs as [-> | ->]; autorewrite with nan_calc; reflexivity. }
    split; [exact HA|]. revert HA. unfold CopperTempCalculator.res.
    cbn [CopperTempCalculator.A CopperTempCalculator.R1 CopperTempCalculator.R2].
    intros ->. rewrite js_or_nan. split; reflexivity.
  - intros s Hs r. subst r.
    assert (HA : ThermalViaCalculator.A_total_m2 (ThermalViaCalculator.res s) = nan).
    { unfold ThermalViaCalculator.res. cbn [ThermalViaCalculator.A_total_m2].
      binary64_ops.
      destruct Hs as [-> | [-> | ->]]; autorewrite with nan_calc; reflexivity. }
    split; [exact HA|]. revert HA. unfold ThermalViaCalculator.res.
    cbn [ThermalViaCalculator.A_total_m2 ThermalViaCalculator.Rth_cond].
    intros ->. rewrite js_or_nan. reflexivity.
  - intros P s Hs r. subst r.
    assert (Hcs : Ipc2221Calculator.crossSection_m2 s = nan).
    { unfold Ipc2221Calculator.crossSection_m2, ozToMm. binary64_ops.
      rewrite Hs. autorewrite with nan_calc. reflexivity. }
    split; [exact Hcs|].
    destruct (trace_quotients s) as [-> ->]. rewrite Hcs, js_or_nan.
    split; reflexivity.
Qed.

(** A NaN among the other inputs reaches the results: resistivity,
    coefficient or length make both copper resistances NaN, each
    temperature its own resistance, board thickness or conductivity the
    via resistance, the trace length both trace resistances and both power
    losses, and the current the current density and both power losses. *)
Lemma nan_elsewhere_propagates :
  (forall s : CopperTempCalculator.State float,
     CopperTempCalculator.rho20 s = nan \/ CopperTempCalculator.alpha s = nan
     \/ CopperTempCalculator.length s = nan ->
     CopperTempCalculator.R1 (CopperTempCalculator.res s) = nan /\
     CopperTempCalculator.R2 (CopperTempCalculator.res s) = nan) /\
  (forall s : CopperTempCalculator.State float,
     (CopperTempCalculator.t1 s = nan ->
      CopperTempCalculator.R1 (CopperTempCalculator.res s) = nan) /\
     (CopperTempCalculator.t2 s = nan ->
      CopperTempCalculator.R2 (CopperTempCalculator.res s) = nan)) /\
  (forall s : ThermalViaCalculator.State float,
     ThermalViaCalculator.boardT s = nan \/ ThermalViaCalculator.kCu s = nan ->
     ThermalViaCalculator.Rth_cond (ThermalViaCalculator.res s) = nan) /\
  (forall (P : JsMathPow float) (s : Ipc2221Calculator.State float),
     Ipc2221Calculator.length s = nan ->
     let r := Ipc2221Calculator.results s in
     Ipc2221Calculator.R20 r = nan /\ Ipc2221Calculator.R_T r = nan /\
     Ipc2221Calculator.P20 r = nan /\ Ipc2221Calculator.P_T r = nan) /\
  (forall (P : JsMathPow float) (s : Ipc2221Calculator.State float),
     Ipc2221Calculator.current s = nan ->
     let r := Ipc2221Calculator.results s in
     Ipc2221Calculator.J r = nan /\
     Ipc2221Calculator.P20 r = nan /\ Ipc2221Calculator.P_T r = nan).
Proof.
  split; [|split; [|split; [|split]]].
  - intros s Hs. unfold CopperTempCalculator.res.
    cbn [CopperTempCalculator.R1 CopperTempCalculator.R2]. binary64_ops.
    destruct Hs as [-> | [-> | ->]]; autorewrite with nan_calc; split; reflexivity.
  - intros s. unfold CopperTempCalculator.res.
    cbn [CopperTempCalculator.R1 CopperTempCalculator.R2]. binary64_ops.
    split; intros ->; autorewrite with nan_calc; reflexivity.
  - intros s Hs. unfold ThermalViaCalculator.res.
    cbn [ThermalViaCalculator.Rth_cond]. binary64_ops.
    destruct Hs as [-> | ->]; autorewrite with nan_calc; reflexivity.
  - intros P s Hs r. subst r.
    assert (HR : Ipc2221Calculator.R20 (Ipc2221Calculator.results s) = nan).
    { destruct (trace_quotients s) as [-> _]. binary64_ops. rewrite Hs.
      autorewrite with nan_calc. reflexivity. }
    assert (HT : Ipc2221Calculator.R_T (Ipc2221Calculator.results s) = nan).
    { change (Ipc2221Calculator.R_T (Ipc2221Calculator.results s))
        with (Ipc2221Calculator.R20 (Ipc2221Calculator.results s)
              * (lit 1 + ALPHA_CU
                 * (Ipc2221Calculator.ambient s + Ipc2221Calculator.tempRise s
                    - lit 20)))%js.
      rewrite HR. binary64_ops. autorewrite with nan_calc. reflexivity. }
    split; [exact HR|]. split; [exact HT|]. split.
    + change (Ipc2221Calculator.P20 (Ipc2221Calculator.results s))
        with (Ipc2221Calculator.current s * Ipc2221Calculator.current s
              * Ipc2221Calculator.R20 (Ipc2221Calculator.results s))%js.
      rewrite HR. binary64_ops. autorewrite with nan_calc. reflexivity.
    + change (Ipc2221Calculator.P_T (Ipc2221Calculator.results s))
        with (Ipc2221Calculator.current s * Ipc2221Calculator.current s
              * Ipc2221Calculator.R_T (Ipc2221Calculator.results s))%js.
      rewrite HT. binary64_ops. autorewrite with nan_calc. reflexivity.
  - intros P s Hs r. subst r. split; [|split].
    + destruct (trace_quotients s) as [_ ->]. binary64_ops. rewrite Hs.
      autorewrite with nan_calc. reflexivity.
    + change (Ipc2221Calculator.P20 (Ipc2221Calculator.results s))
        with (Ipc2221Calculator.current s * Ipc2221Calculator.current s
              * Ipc2221Calculator.R20 (Ipc2221Calculator.results s))%js.
      binary64_ops. rewrite Hs. autorewrite with nan_calc. reflexivity.
    + change (Ipc2221Calculator.P_T (Ipc2221Calculator.results s))
        with (Ipc2221Calculator.current s * Ipc2221Calculator.current s
              * Ipc2221Calculator.R_T (Ipc2221Calculator.results s))%js.
      binary64_ops. rewrite Hs. autorewrite with nan_calc. reflexivity.
Qed.

(** Exchanging width and thickness leaves every result of the copper
    calculator unchanged, bit for bit. *)
Lemma width_and_thickness_interchangeable (rho a ta tb len w t : float) :
  CopperTempCalculator.res
    {| CopperTempCalculator.rho20 := rho; CopperTempCalculator.alpha := a;
       CopperTempCalculator.t1 := ta; CopperTempCalculator.t2 := tb;
       CopperTempCalculator.length := len;
       CopperTempCalculator.width := t; CopperTempCalculator.thickness := w |}
  = CopperTempCalculator.res
    {| CopperTempCalculator.rho20 := rho; CopperTempCalculator.alpha := a;
       CopperTempCalculator.t1 := ta; CopperTempCalculator.t2 := tb;
       CopperTempCalculator.length := len;
       CopperTempCalculator.width := w; CopperTempCalculator.thickness := t |}.
Proof.
  unfold CopperTempCalculator.res.
  cbn [CopperTempCalculator.rho20 CopperTempCalculator.alpha
       CopperTempCalculator.t1 CopperTempCalculator.t2
       CopperTempCalculator.length CopperTempCalculator.width
       CopperTempCalculator.thickness].
  binary64_ops. rewrite (float_mul_comm (t / of_Q 1000) (w / of_Q 1000)).
  reflexivity.
Qed.

End NaNInputs.

(** ** When a render reuses the memoised results *)

Section MemoHit.
Context {T : Type} {N : JsNumber T}.
Hypothesis sameValue_iff : forall x y : T, sameValue x y = true <-> x = y.

Lemma Object_is_refl (a : JsValue T) : Object_is a a = true.
Proof.
  destruct a as [x | s]; cbn.
  - apply sameValue_iff. reflexivity.
  - apply String.eqb_refl.
Qed.

Lemma areHookInputsEqual_refl (l : list (JsValue T)) :
  areHookInputsEqual l l = true.
Proof.
  induction l as [| a l IH]; [reflexivity|].
  cbn. rewrite Object_is_refl. exact IH.
Qed.

Lemma areHookInputsEqual_iff (next prev : list (JsValue T)) :
  List.length next = List.length prev ->
  (areHookInputsEqual next prev = true <-> next = prev).
Proof.
  intros Hlen. split.
  - apply (areHookInputsEqual_sound
             (Sound := fun x y => proj1 (sameValue_iff x y))); exact Hlen.
  - intros ->. apply areHookInputsEqual_refl.
Qed.

End MemoHit.

Lemma Ipc2221_deps_inj {T} {N : JsNumber T} (s s' : Ipc2221Calculator.State T) :
  Ipc2221Calculator.deps s = Ipc2221Calculator.deps s' -> s = s'.
Proof.
  destruct s, s'. unfold Ipc2221Calculator.deps. cbn.
  intros Heq. injection Heq as -> -> -> -> -> ->. reflexivity.
Qed.

Lemma CopperTemp_deps_inj {T} {N : JsNumber T}
    (s s' : CopperTempCalculator.State T) :
  CopperTempCalculator.deps s = CopperTempCalculator.deps s' -> s = s'.
Proof.
  destruct s, s'. unfold CopperTempCalculator.deps. cbn.
  intros Heq. injection Heq as -> -> -> -> -> -> ->. reflexivity.
Qed.

Lemma ThermalVia_deps_inj {T} {N : JsNumber T}
    (s s' : ThermalViaCalculator.State T) :
  ThermalViaCalculator.deps s = ThermalViaCalculator.deps s' -> s = s'.
Proof.
  destruct s, s'. unfold ThermalViaCalculator.deps. cbn.
  intros Heq. injection Heq as -> -> -> -> ->. reflexivity.
Qed.

(** Where the same-value comparison of numbers is exactly equality, as it
    is at binary64, each component's dependency array compares equal to the
    one of the previous render exactly when no input of the component
    changed: the array lists every input, and nothing else. *)
Lemma memo_reused_iff_no_input_changed (T : Type) (N : JsNumber T) :
  (forall x y : T, sameValue x y = true <-> x = y) ->
  (forall s s' : Ipc2221Calculator.State T,
     areHookInputsEqual (Ipc2221Calculator.deps s') (Ipc2221Calculator.deps s)
     = true <-> s' = s) /\
  (forall s s' : CopperTempCalculator.State T,
     areHookInputsEqual (CopperTempCalculator.deps s')
       (CopperTempCalculator.deps s) = true <-> s' = s) /\
  (forall s s' : ThermalViaCalculator.State T,
     areHookInputsEqual (ThermalViaCalculator.deps s')
       (ThermalViaCalculator.deps s) = true <-> s' = s).
Proof.
  intros Hiff. split; [|split]; intros s s';
    rewrite (areHookInputsEqual_iff Hiff) by reflexivity; split;
    try (intros ->; reflexivity).
  - apply Ipc2221_deps_inj.
  - apply CopperTemp_deps_inj.
  - apply ThermalVia_deps_inj.
Qed.

Lemma memo_reused_iff_no_input_changed_witness :
  let s := ThermalViaCalculator.initial (T:=float) in
  let s' := {| ThermalViaCalculator.n := 17%float;
               ThermalViaCalculator.hole := ThermalViaCalculator.hole s;
               ThermalViaCalculator.plate := ThermalViaCalculator.plate s;
               ThermalViaCalculator.boardT := ThermalViaCalculator.boardT s;
               ThermalViaCalculator.kCu := ThermalViaCalculator.kCu s |} in
  areHookInputsEqual (ThermalViaCalculator.deps s')
    (ThermalViaCalculator.deps s) = true <-> s' = s.
Proof.
  exact (proj2 (proj2 (memo_reused_iff_no_input_changed float Binary64
                         FloatAxioms.Leibniz.eqb_spec)) _ _).
Defined.

(** ** The desktop shell *)

Section Shell.
Import ElectronMain.

Lemma Forall_firstn_of {A} (Q : A -> Prop) (i : nat) (l : list A) :
  Forall Q l -> Forall Q (firstn i l).
Proof.
  revert i. induction l as [| x l IH]; intros [| i] H; cbn; try constructor.
  - inversion H; assumption.
  - apply IH. inversion H; assumption.
Qed.

Lemma Forall_skipn_of {A} (Q : A -> Prop) (i : nat) (l : list A) :
  Forall Q l -> Forall Q (skipn i l).
Proof.
  revert l. induction i as [| i IH]; intros [| x l] H; cbn; try assumption.
  apply IH. inversion H; assumption.
Qed.

Lemma step_windows (p : Process) (a : App) (ev : Event) :
  Forall (fun w => w = new_window p) (windows a) ->
  Forall (fun w => w = new_window p) (windows (step p a ev)).
Proof.
  intros Ha. destruct ev as [| | | i]; cbn.
  - destruct (ready a); [exact Ha|]. cbn.
    apply Forall_app. split; [exact Ha | repeat constructor].
  - destruct (ready a); [|exact Ha]. unfold on_activate.
    destruct (Nat.eqb _ 0); [|exact Ha]. cbn.
    apply Forall_app. split; [exact Ha | repeat constructor].
  - unfold on_window_all_closed. destruct (negb _); exact Ha.
  - apply Forall_app. split;
      [apply Forall_firstn_of | apply (Forall_skipn_of _ (S i))]; exact Ha.
Qed.

Lemma fold_step_windows (p : Process) (events : list Event) (a : App) :
  Forall (fun w => w = new_window p) (windows a) ->
  Forall (fun w => w = new_window p) (windows (fold_left (step p) events a)).
Proof.
  revert a. induction events as [| ev events IH]; intros a Ha; [exact Ha|].
  cbn. apply IH. apply step_windows. exact Ha.
Qed.

(** Whatever events arrive, every open window has context isolation on and
    node integration off and is 1100 by 800; in a packaged application it
    loads the built [index.html] next to the script and no developer tools
    are opened, otherwise it loads the development server and opens
    detached developer tools. *)
Lemma every_window_is_isolated (p : Process) (events : list Event) :
  Forall (fun w =>
            contextIsolation (webPreferences w) = true /\
            nodeIntegration (webPreferences w) = false /\
            width w = 1100%Z /\ height w = 800%Z /\
            (isPackaged p = true ->
               content w = LoadFile [dirname p; "../dist/index.html"%string] /\
               devTools w = None) /\
            (isPackaged p = false ->
               content w = LoadURL "http://localhost:5173" /\
               devTools w = Some "detach"%string))
         (windows (run p events)).
Proof.
  unfold run.
  pose proof (fold_step_windows p events started (Forall_nil _)) as H.
  apply Forall_impl with (2 := H). intros w ->.
  unfold new_window, isDev. cbn.
  do 4 (split; [reflexivity|]).
  split; intros ->; split; reflexivity.
Qed.

Lemma fold_step_not_ready (p : Process) (events : list Event) (a : App) :
  ready a = false -> windows a = [] -> ~ In WhenReady events ->
  let a' := fold_left (step p) events a in
  ready a' = false /\ windows a' = [].
Proof.
  revert a. induction events as [| ev events IH]; intros a Hr Hw Hin;
    [split; assumption|].
  cbn [fold_left]. apply IH.
  - destruct ev as [| | | i]; cbn.
    + exfalso. apply Hin. left. reflexivity.
    + rewrite Hr. exact Hr.
    + unfold on_window_all_closed. destruct (negb _); cbn; exact Hr.
    + exact Hr.
  - destruct ev as [| | | i]; cbn.
    + exfalso. apply Hin. left. reflexivity.
    + rewrite Hr. exact Hw.
    + unfold on_window_all_closed. destruct (negb _); cbn; exact Hw.
    + rewrite Hw. destruct i; reflexivity.
  - intros H. apply Hin. right. exact H.
Qed.

Lemma ready_stays (p : Process) (a : App) (ev : Event) :
  ready a = true -> ready (step p a ev) = true.
Proof.
  intros H. destruct ev as [| | | i]; cbn.
  - rewrite H. exact H.
  - rewrite H. unfold on_activate. destruct (Nat.eqb _ 0); exact H.
  - unfold on_window_all_closed. destruct (negb _); exact H.
  - exact H.
Qed.

Lemma fold_ready_stays (p : Process) (events : list Event) (a : App) :
  ready a = true -> ready (fold_left (step p) events a) = true.
Proof.
  revert a. induction events as [| ev events IH]; intros a H; [exact H|].
  cbn [fold_left]. apply IH. apply ready_stays. exact H.
Qed.

Lemma fold_ready_after (p : Process) (events : list Event) (a : App) :
  In WhenReady events -> ready (fold_left (step p) events a) = true.
Proof.
  revert a. induction events as [| ev events IH]; intros a Hin; [destruct Hin|].
  cbn [fold_left]. destruct Hin as [-> | Hin]; [|apply IH; exact Hin].
  apply fold_ready_stays. cbn. destruct (ready a) eqn:E; [exact E | reflexivity].
Qed.

(** The application is ready exactly when the [whenReady] callback has
    run; before that no window exists, whatever other events arrive, and
    once it has run an [activate] event always leaves a window open. *)
Lemma windows_need_ready (p : Process) (events : list Event) :
  (ready (run p events) = true <-> In WhenReady events) /\
  (~ In WhenReady events -> windows (run p events) = []) /\
  (In WhenReady events -> windows (run p (events ++ [Activate])) <> []).
Proof.
  split; [split|split].
  - intros Hr. destruct (in_dec (fun x y : Event =>
        ltac:(decide equality; apply Nat.eq_dec) : {x = y} + {x <> y})
        WhenReady events) as [Hin | Hnot]; [exact Hin|].
    destruct (fold_step_not_ready p events started eq_refl eq_refl Hnot)
      as [Hf _].
    unfold run in Hr. rewrite Hf in Hr. discriminate.
  - intros Hin. apply fold_ready_after. exact Hin.
  - intros Hnot.
    exact (proj2 (fold_step_not_ready p events started eq_refl eq_refl Hnot)).
  - intros Hin. unfold run. rewrite fold_left_app. cbn [fold_left step].
    rewrite (fold_ready_after p events started Hin).
    unfold on_activate.
    destruct (windows (fold_left (step p) events started)) as [| w ws] eqn:Hw.
    + cbn. rewrite Hw. discriminate.
    + cbn. rewrite Hw. discriminate.
Qed.

Lemma quit_only_off_darwin_step (p : Process) (a : App) (ev : Event) :
  quit_called (step p a ev) = true ->
  quit_called a = true
  \/ (ev = WindowAllClosed /\ platform p <> "darwin"%string).
Proof.
  destruct ev; cbn.
  - destruct (ready a); cbn; auto.
  - destruct (ready a); [|auto]. unfold on_activate.
    destruct (Nat.eqb _ 0); cbn; auto.
  - unfold on_window_all_closed.
    destruct (String.eqb (platform p) "darwin") eqn:E; cbn; [auto|].
    intros _. right. split; [reflexivity|]. apply String.eqb_neq. exact E.
  - auto.
Qed.

Lemma quit_stays (p : Process) (a : App) (ev : Event) :
  quit_called a = true -> quit_called (step p a ev) = true.
Proof.
  intros H. destruct ev as [| | | i]; cbn.
  - destruct (ready a); exact H.
  - destruct (ready a); [|exact H]. unfold on_activate.
    destruct (Nat.eqb _ 0); exact H.
  - unfold on_window_all_closed. destruct (negb _); [reflexivity | exact H].
  - exact H.
Qed.

(** [app.quit()] is called exactly when a [window-all-closed] event arrives
    on a platform other than [darwin]: never on [darwin], and never by
    another event. *)
Lemma quit_needs_all_closed_off_darwin (p : Process) (events : list Event) :
  quit_called (run p events) = true <->
  In WindowAllClosed events /\ platform p <> "darwin"%string.
Proof.
  unfold run.
  assert (G : forall a,
             quit_called (fold_left (step p) events a) = true <->
             quit_called a = true
             \/ (In WindowAllClosed events /\ platform p <> "darwin"%string)).
  { induction events as [| ev events IH]; intros a.
    - cbn. tauto.
    - cbn [fold_left]. rewrite IH. split.
      + intros [H | [H1 H2]].
        * apply quit_only_off_darwin_step in H.
          destruct H as [H | [-> H]]; [auto|].
          right. split; [left; reflexivity | exact H].
        * right. split; [right; exact H1 | exact H2].
      + intros [H | [[-> | H1] H2]].
        * left. apply quit_stays. exact H.
        * left. cbn. unfold on_window_all_closed.
          apply String.eqb_neq in H2. rewrite H2. reflexivity.
        * right. split; assumption. }
  rewrite G. cbn. split; [intros [H | H]; [discriminate | exact H] | auto].
Qed.

End Shell.

(** ** Binary64 arithmetic: zeros and infinities *)

Section Binary64Edges.
Local Open Scope float_scope.

Lemma SFeqb_refl_finite (s : bool) (m : positive) (e : Z) :
  SFeqb (S754_finite s m e) (S754_finite s m e) = true.
Proof.
  unfold SFeqb, SFcompare.
  destruct s; rewrite Z.compare_refl, Pos.compare_cont_refl; reflexivity.
Qed.

(** The falsy binary64 values are the two zeros and NaN. *)
Lemma falsy_cases (x : float) :
  falsy x = true <->
  (exists s, Prim2SF x = S754_zero s) \/ Prim2SF x = S754_nan.
Proof.
  cbn [falsy Binary64]. unfold PrimFloat.is_zero, PrimFloat.is_nan.
  rewrite !FloatAxioms.eqb_spec. change (Prim2SF 0) with (S754_zero false).
  destruct (Prim2SF x) as [s | s | | s m e].
  - split; [intros _; left; eauto | reflexivity].
  - split; [destruct s; discriminate | intros [[s' H] | H]; discriminate].
  - split; [intros _; right; reflexivity | reflexivity].
  - rewrite SFeqb_refl_finite.
    split; [destruct s; discriminate | intros [[s' H] | H]; discriminate].
Qed.

Lemma falsy_div_l (x y : float) : falsy x = true -> falsy (x / y) = true.
Proof.
  intros Hx. apply falsy_cases in Hx. apply falsy_cases.
  rewrite FloatAxioms.div_spec.
  destruct Hx as [[s ->] | ->]; destruct (Prim2SF y) as [sy | sy | | sy my ey];
    cbn; eauto.
Qed.

Lemma falsy_mul_l (x y : float) : falsy x = true -> falsy (x * y) = true.
Proof.
  intros Hx. apply falsy_cases in Hx. apply falsy_cases.
  rewrite FloatAxioms.mul_spec.
  destruct Hx as [[s ->] | ->]; destruct (Prim2SF y) as [sy | sy | | sy my ey];
    cbn; eauto.
Qed.

Lemma falsy_mul_r (x y : float) : falsy y = true -> falsy (x * y) = true.
Proof. rewrite float_mul_comm. apply falsy_mul_l. Qed.

(** A zero over a number that is neither a zero nor NaN is a zero. *)
Lemma zero_div (x d : float) :
  PrimFloat.is_zero x = true -> falsy d = false ->
  x / d = 0 \/ x / d = -0.
Proof.
  intros Hx Hd.
  assert (Hz : exists s, Prim2SF x = S754_zero s).
  { assert (Hf : falsy x = true) by (cbn [falsy Binary64]; rewrite Hx; reflexivity).
    apply falsy_cases in Hf. destruct Hf as [Hf | Hf]; [exact Hf|].
    revert Hx. unfold PrimFloat.is_zero. rewrite FloatAxioms.eqb_spec, Hf.
    discriminate. }
  destruct Hz as [s Hs].
  pose proof (FloatAxioms.div_spec x d) as E. rewrite Hs in E.
  destruct (Prim2SF d) as [sd | sd | | sd md ed] eqn:Ed.
  - exfalso. assert (falsy d = true) by (apply falsy_cases; eauto). congruence.
  - cbn in E. apply SF2Prim_of in E.
    destruct (xorb s sd); [right | left]; exact E.
  - exfalso. assert (falsy d = true) by (apply falsy_cases; eauto). congruence.
  - cbn in E. apply SF2Prim_of in E.
    destruct (xorb s sd); [right | left]; exact E.
Qed.

(** Any number over an infinity is a zero or NaN. *)
Lemma falsy_div_infinity (x : float) : falsy (x / infinity) = true.
Proof.
  apply falsy_cases. rewrite FloatAxioms.div_spec.
  change (Prim2SF infinity) with (S754_infinity false).
  destruct (Prim2SF x) as [s | s | | s m e]; cbn; eauto.
Qed.

(** A positive number over +0 is +Infinity. *)
Lemma pos_div_zero (c : float) : (0 <? c) = true -> c / 0 = infinity.
Proof.
  rewrite FloatAxioms.ltb_spec. change (Prim2SF 0) with (S754_zero false).
  intros H. pose proof (FloatAxioms.div_spec c 0) as E.
  change (Prim2SF 0) with (S754_zero false) in E.
  destruct (Prim2SF c) as [s | s | | s m e]; try destruct s; try discriminate;
    cbn in E; apply SF2Prim_of in E; exact E.
Qed.

(** +Infinity over a positive finite number is +Infinity. *)
Lemma infinity_div_pos (d : float) :
  (0 <? d) = true -> (d <? infinity) = true -> infinity / d = infinity.
Proof.
  rewrite !FloatAxioms.ltb_spec.
  change (Prim2SF 0) with (S754_zero false).
  change (Prim2SF infinity) with (S754_infinity false).
  intros H0 Hi. pose proof (FloatAxioms.div_spec infinity d) as E.
  change (Prim2SF infinity) with (S754_infinity false) in E.
  destruct (Prim2SF d) as [s | s | | s m e]; try destruct s; try discriminate;
    cbn in E; apply SF2Prim_of in E; exact E.
Qed.

(** A positive number times +Infinity is +Infinity. *)
Lemma pos_mul_infinity (d : float) :
  (0 <? d) = true -> d * infinity = infinity.
Proof.
  rewrite !FloatAxioms.ltb_spec.
  change (Prim2SF 0) with (S754_zero false).
  intros H0. pose proof (FloatAxioms.mul_spec d infinity) as E.
  change (Prim2SF infinity) with (S754_infinity false) in E.
  destruct (Prim2SF d) as [s | s | | s m e]; try destruct s; try discriminate;
    cbn in E; apply SF2Prim_of in E; exact E.
Qed.

(** A finite number over +Infinity is a zero. *)
Lemma finite_div_infinity (c : float) :
  (0 <? c) = true -> (c <? infinity) = true -> c / infinity = 0.
Proof.
  rewrite !FloatAxioms.ltb_spec.
  change (Prim2SF 0) with (S754_zero false).
  change (Prim2SF infinity) with (S754_infinity false).
  intros H0 Hi. pose proof (FloatAxioms.div_spec c infinity) as E.
  change (Prim2SF infinity) with (S754_infinity false) in E.
  destruct (Prim2SF c) as [s | s | | s m e]; try destruct s; try discriminate;
    cbn in E; apply SF2Prim_of in E; exact E.
Qed.


End Binary64Edges.

(** ** Trace width against current and rise *)

Section WidthOrder.
Import Ipc2221Calculator.
Local Open Scope float_scope.






End WidthOrder.

(** ** Unit round trips *)

Lemma holds_from_spec (test : Z -> bool) (count : nat) (k0 : Z) :
  holds_from test k0 count = true ->
  forall k : Z, (k0 <= k < k0 + Z.of_nat count)%Z -> test k = true.
Proof.
  revert k0. induction count as [| n IH]; intros k0 H k Hk; [lia|].
  cbn [holds_from] in H. apply andb_true_iff in H. destruct H as [H0 Hn].
  destruct (Z.eq_dec k k0) as [-> | Hne]; [exact H0|].
  apply (IH (k0 + 1)%Z Hn). lia.
Qed.

Lemma within_one_ulp_spec (r x : float) :
  within_one_ulp r x = true -> r = x \/ r = next_down x \/ r = next_up x.
Proof.
  unfold within_one_ulp. rewrite !orb_true_iff.
  rewrite !FloatAxioms.Leibniz.eqb_spec. tauto.
Qed.

Section RoundTripBinary64.
Local Open Scope float_scope.





Lemma mm_round_trips_on_grid :
  holds_from mm_round_trip_within_one_ulp 0 (Z.to_nat 100001) = true.
Proof. vm_compute. reflexivity. Qed.

(** Converting mm to mil and back returns the original value in real
    arithmetic, and at binary64 a value within one binary64 value of it for
    every multiple of 0.01 from 0 to 1000; the finite value 1e308 comes
    back as +Infinity, because the quotient by 0.0254 overflows. *)
Lemma mm_mil_mm_round_trip :
  (forall x : R, milToMm (N:=Exact) (mmToMil (N:=Exact) x) = x) /\
  (forall k : Z, (0 <= k <= 100000)%Z ->
     let x : float := lit (k # 100) in
     milToMm (mmToMil x) = x \/ milToMm (mmToMil x) = next_down x
     \/ milToMm (mmToMil x) = next_up x) /\
  PrimFloat.is_finite 1e308 = true /\
  milToMm (mmToMil 1e308) = infinity.
Proof.
  split; [|split; [|split; reflexivity]].
  - intros x. unfold mmToMil, milToMm. exact_ops. field.
  - intros k Hk x.
    pose proof (holds_from_spec _ _ _ mm_round_trips_on_grid k) as H.
    assert (Hr : (0 <= k < 0 + Z.of_nat (Z.to_nat 100001))%Z) by lia.
    specialize (H Hr). apply within_one_ulp_spec. exact H.
Qed.

Lemma mm_mil_mm_round_trip_witness :
  milToMm (N:=Exact) (mmToMil (N:=Exact) 3%R) = 3%R /\
  (let x : float := lit (300 # 100) in
   milToMm (mmToMil x) = x \/ milToMm (mmToMil x) = next_down x
   \/ milToMm (mmToMil x) = next_up x).
Proof.
  split.
  - exact (proj1 mm_mil_mm_round_trip 3%R).
  - apply (proj1 (proj2 mm_mil_mm_round_trip) 300%Z). lia.
Defined.

End RoundTripBinary64.

(** ** The trace calculator at the edges of its inputs *)

Section EdgeInputs.
Import Ipc2221Calculator.
Local Open Scope float_scope.

(** With a current of +0, a divisor [k * Math.pow(tempRise, 0.44)] that is
    neither a zero nor NaN, and a [Math.pow] that answers +0 for a base of
    +0 or -0 at the exponent [1/0.725] (as ECMAScript requires), the area
    is +0 and the widths and the cross-section are a zero or NaN for every
    copper weight, so both quotients divide by 1e-18: the resistance at 20
    degrees is its numerator over 1e-18, the current density is 0, and
    both power losses are a zero or NaN. *)
Lemma no_current_no_width (P : JsMathPow float) (s : State float) :
  current s = 0 ->
  falsy (k s * Math_pow (tempRise s) IPC_B) = false ->
  Math_pow 0 (lit 1 / IPC_C)%js = 0 ->
  Math_pow (-0) (lit 1 / IPC_C)%js = 0 ->
  let r := results s in
  area_mils2 r = 0 /\
  falsy (width_mil r) = true /\ falsy (width_mm r) = true /\
  falsy (crossSection_m2 s) = true /\
  R20 r = length s / 1000 * 1.68e-8 / 1e-18 /\
  J r = 0 /\
  falsy (P20 r) = true /\ falsy (P_T r) = true.
Proof.
  intros Hc Hd Hp Hn r. subst r.
  assert (Ha : area_mils2 (results s) = 0).
  { unfold results. cbn [area_mils2]. rewrite Hc.
    destruct (zero_div 0 _ eq_refl Hd) as [E | E];
      cbn [div mul Binary64] in *; rewrite E; assumption. }
  assert (Hmil : falsy (width_mil (results s)) = true).
  { change (width_mil (results s))
      with (area_mils2 (results s) / (thicknessOz s * lit 1.378)).
    apply falsy_div_l. rewrite Ha. reflexivity. }
  assert (Hmm : falsy (width_mm (results s)) = true).
  { change (width_mm (results s)) with (milToMm (width_mil (results s))).
    unfold milToMm. apply (falsy_mul_l _ _ Hmil). }
  assert (Hcs : falsy (crossSection_m2 s) = true).
  { unfold crossSection_m2. apply (falsy_mul_r (ozToMm (thicknessOz s) / lit 1000)).
    apply (falsy_div_l _ _ Hmm). }
  assert (Hzz : falsy (current s * current s) = true) by (rewrite Hc; reflexivity).
  do 4 (split; [assumption|]).
  destruct (trace_quotients s) as [HR HJ].
  rewrite (js_or_falsy _ _ Hcs) in HR, HJ.
  split; [exact HR|]. split; [rewrite HJ, Hc; reflexivity|].
  split.
  - change (P20 (results s)) with (current s * current s * R20 (results s)).
    apply (falsy_mul_l _ _ Hzz).
  - change (P_T (results s)) with (current s * current s * R_T (results s)).
    apply (falsy_mul_l _ _ Hzz).
Qed.

Lemma no_current_no_width_witness :
  let P : JsMathPow float :=
    {| Math_pow := fun x y => if PrimFloat.is_zero x then 0 else 1 |} in
  let s := {| current := 0; tempRise := 10; layer := "internal";
              thicknessOz := 1; length := 50; ambient := 25 |} in
  let r := results s in
  area_mils2 r = 0 /\
  falsy (width_mil r) = true /\ falsy (width_mm r) = true /\
  falsy (crossSection_m2 s) = true /\
  R20 r = length s / 1000 * 1.68e-8 / 1e-18 /\
  J r = 0 /\
  falsy (P20 r) = true /\ falsy (P_T r) = true.
Proof.
  cbv zeta.
  apply (no_current_no_width
           {| Math_pow := fun x y => if PrimFloat.is_zero x then 0 else 1 |}
           {| current := 0; tempRise := 10; layer := "internal";
              thicknessOz := 1; length := 50; ambient := 25 |});
    reflexivity.
Defined.

(** With an allowed rise of +0, a positive finite current, a copper
    weight for which [thicknessOz * 1.378] is positive and finite and
    [ozToMm(thicknessOz) / 1000] is positive, and a [Math.pow] that answers
    +0 for a base of +0 at 0.44 and +Infinity for a base of +Infinity at
    [1/0.725] (as ECMAScript requires), the area, both widths and the
    cross-section are +Infinity, the resistance at 20 degrees is a zero or
    NaN and the current density is 0. *)
Lemma zero_rise_needs_infinite_width (P : JsMathPow float) (s : State float) :
  tempRise s = 0 ->
  (0 <? current s) = true -> (current s <? infinity) = true ->
  (0 <? thicknessOz s * 1.378) = true ->
  (thicknessOz s * 1.378 <? infinity) = true ->
  (0 <? ozToMm (thicknessOz s) / 1000) = true ->
  Math_pow 0 IPC_B = 0 ->
  Math_pow infinity (lit 1 / IPC_C)%js = infinity ->
  let r := results s in
  area_mils2 r = infinity /\
  width_mil r = infinity /\ width_mm r = infinity /\
  crossSection_m2 s = infinity /\
  falsy (R20 r) = true /\ J r = 0.
Proof.
  intros Hr Hc Hcf Ht Htf Hmm Hp0 Hpi r. subst r.
  assert (Ha : area_mils2 (results s) = infinity).
  { unfold results. cbn [area_mils2]. rewrite Hr, Hp0.
    assert (Hk : (k s * 0)%js = 0)
      by (unfold k; destruct (String.eqb (layer s) "external"); reflexivity).
    rewrite Hk. cbn [div Binary64]. rewrite (pos_div_zero _ Hc). exact Hpi. }
  assert (Hmil : width_mil (results s) = infinity).
  { change (width_mil (results s))
      with (area_mils2 (results s) / (thicknessOz s * lit 1.378)).
    rewrite Ha. apply infinity_div_pos; assumption. }
  assert (Hw : width_mm (results s) = infinity).
  { change (width_mm (results s)) with (milToMm (width_mil (results s))).
    rewrite Hmil. reflexivity. }
  assert (Hcs : crossSection_m2 s = infinity).
  { unfold crossSection_m2. rewrite Hw.
    change (infinity / lit 1000)%js with infinity.
    apply pos_mul_infinity. exact Hmm. }
  do 4 (split; [assumption|]).
  destruct (trace_quotients s) as [HR HJ].
  rewrite Hcs in HR, HJ. change (infinity || lit 1e-18)%js with infinity in HR, HJ.
  split.
  - rewrite HR. apply falsy_div_infinity.
  - rewrite HJ. apply finite_div_infinity; assumption.
Qed.

Lemma zero_rise_needs_infinite_width_witness :
  let P : JsMathPow float :=
    {| Math_pow := fun x y => if PrimFloat.is_zero x then 0 else infinity |} in
  let s := {| current := 30; tempRise := 0; layer := "external";
              thicknessOz := 2; length := 50; ambient := 25 |} in
  let r := results s in
  area_mils2 r = infinity /\
  width_mil r = infinity /\ width_mm r = infinity /\
  crossSection_m2 s = infinity /\
  falsy (R20 r) = true /\ J r = 0.
Proof.
  cbv zeta.
  apply (zero_rise_needs_infinite_width
           {| Math_pow := fun x y => if PrimFloat.is_zero x then 0 else infinity |}
           {| current := 30; tempRise := 0; layer := "external";
              thicknessOz := 2; length := 50; ambient := 25 |});
    reflexivity.
Defined.

(** With a negative finite allowed rise and a [Math.pow] that answers NaN
    for a negative finite base at 0.44 and for a NaN base at [1/0.725] (as
    ECMAScript requires), the area, both widths and the cross-section are
    NaN, and both quotients divide by 1e-18. *)
Lemma negative_rise_gives_nan_width (P : JsMathPow float) (s : State float) :
  (tempRise s <? 0) = true -> (neg_infinity <? tempRise s) = true ->
  (forall x : float,
     (x <? 0) = true -> (neg_infinity <? x) = true -> Math_pow x IPC_B = nan) ->
  Math_pow nan (lit 1 / IPC_C)%js = nan ->
  let r := results s in
  area_mils2 r = nan /\ width_mil r = nan /\ width_mm r = nan /\
  crossSection_m2 s = nan /\
  R20 r = length s / 1000 * 1.68e-8 / 1e-18 /\
  J r = current s / 1e-18.
Proof.
  intros Hneg Hfin Hpneg Hpnan r. subst r.
  assert (Ha : area_mils2 (results s) = nan).
  { unfold results. cbn [area_mils2]. rewrite (Hpneg _ Hneg Hfin).
    binary64_ops. autorewrite with nan_calc. exact Hpnan. }
  assert (Hmil : width_mil (results s) = nan).
  { change (width_mil (results s))
      with (area_mils2 (results s) / (thicknessOz s * lit 1.378)).
    rewrite Ha. apply div_nan_l. }
  assert (Hw : width_mm (results s) = nan).
  { change (width_mm (results s)) with (milToMm (width_mil (results s))).
    rewrite Hmil. reflexivity. }
  assert (Hcs : crossSection_m2 s = nan).
  { unfold crossSection_m2. rewrite Hw. binary64_ops.
    autorewrite with nan_calc. reflexivity. }
  do 4 (split; [assumption|]).
  destruct (trace_quotients s) as [-> ->]. rewrite Hcs, js_or_nan.
  split; reflexivity.
Qed.

Lemma negative_rise_gives_nan_width_witness :
  let P : JsMathPow float :=
    {| Math_pow := fun x y =>
         if PrimFloat.is_nan x then nan else if x <? 0 then nan else 1 |} in
  let s := {| current := 30; tempRise := -10; layer := "external";
              thicknessOz := 2; length := 50; ambient := 25 |} in
  let r := results s in
  area_mils2 r = nan /\ width_mil r = nan /\ width_mm r = nan /\
  crossSection_m2 s = nan /\
  R20 r = length s / 1000 * 1.68e-8 / 1e-18 /\
  J r = current s / 1e-18.
Proof.
  cbv zeta.
  apply (negative_rise_gives_nan_width
           {| Math_pow := fun x y =>
                if PrimFloat.is_nan x then nan else if x <? 0 then nan else 1 |}
           {| current := 30; tempRise := -10; layer := "external";
              thicknessOz := 2; length := 50; ambient := 25 |});
    try reflexivity.
  intros x Hx _. cbn [Math_pow]. rewrite Hx.
  destruct (PrimFloat.is_nan x); reflexivity.
Defined.

End EdgeInputs.
